(** * Image Optimizer API: the two request handlers of [main.py]

    A shallow embedding of [convert_image] and [resize_image]
    (src/image_optimizer_api/main.py) and the properties of their
    validation, dimension arithmetic, format selection and error mapping.

    - Python [int] is [Z]; Python [float] is IEEE 754 binary64, taken from
      [SpecFloat] (the executable specification of the operations, no
      axioms).
    - Python [str] is [string], holding the UTF-8 bytes of the text.
      [upper]/[lower] map the ASCII letters and leave every other byte
      alone: they agree with [str.upper()]/[str.lower()] on text made of
      ASCII characters.  On other text Python's Unicode case mapping may
      rewrite the characters outside ASCII (it turns the sharp s into SS);
      no such text is mapped into the allow-lists of the handlers, whose
      letters are the upper-case images of ASCII letters only, so every
      membership test decides as the code does, and only the text of the
      detail of line 46 differs.  Statements about that text are made for
      ASCII names.
    - Pillow ([Image.open], [Image.resize], [Image.save]) and the upload
      object are outside the repository: they are the variables of
      [Section Handlers].  A call of theirs either returns or raises, and the
      handlers only ever use [str(e)] of what was raised.
    - A handler run is the list of library calls it made, in order, together
      with the [StreamingResponse] it returned or the exception it raised.
    - The handlers are modelled on all their arguments.  The [Query]
      declarations (lines 27-38 and 95-102) let the framework call them only
      with a [target_format] of 3 or 4 characters and a [quality] between 1
      and 100; [convert_route] puts these bounds in front of
      [convert_image], a request outside them being answered 422 by the
      framework without a call of the handler. *)

From Stdlib Require Import ZArith String Ascii List Bool Lia.
From Stdlib Require Import Floats.SpecFloat DecimalString.
Import ListNotations.

Local Open Scope string_scope.
Local Open Scope Z_scope.

(** ** Python strings *)

Module PyStr.

Definition is_lower (c : ascii) : bool :=
  let n := N_of_ascii c in (97 <=? n)%N && (n <=? 122)%N.

Definition is_upper (c : ascii) : bool :=
  let n := N_of_ascii c in (65 <=? n)%N && (n <=? 90)%N.

Definition upper_char (c : ascii) : ascii :=
  if is_lower c then ascii_of_N (N_of_ascii c - 32) else c.

Definition lower_char (c : ascii) : ascii :=
  if is_upper c then ascii_of_N (N_of_ascii c + 32) else c.

Fixpoint map_chars (f : ascii -> ascii) (s : string) : string :=
  match s with
  | EmptyString => EmptyString
  | String c s' => String (f c) (map_chars f s')
  end.

(** [s.upper()] and [s.lower()] on text of ASCII characters; bytes of other
    characters are left as they are, where Python may rewrite them *)
Definition upper : string -> string := map_chars upper_char.
Definition lower : string -> string := map_chars lower_char.

(** [str(n)] for an [int], as an f-string renders it *)
Definition str_int (n : Z) : string := NilZero.string_of_int (Z.to_int n).

(** [x in xs] for a list of strings *)
Definition str_in (x : string) (xs : list string) : bool :=
  existsb (String.eqb x) xs.

(** every character is ASCII *)
Fixpoint is_ascii (s : string) : bool :=
  match s with
  | EmptyString => true
  | String c s' => (N_of_ascii c <? 128)%N && is_ascii s'
  end.

(** a byte 10xxxxxx continues a character begun by an earlier byte *)
Definition is_continuation (c : ascii) : bool :=
  let n := N_of_ascii c in (128 <=? n)%N && (n <? 192)%N.

(** [len(s)]: the number of characters, not of bytes *)
Fixpoint len (s : string) : Z :=
  match s with
  | EmptyString => 0
  | String c s' => (if is_continuation c then 0 else 1) + len s'
  end.

(** truthiness of an optional string: [None] and the empty string are falsy *)
Definition truthy (s : option string) : bool :=
  match s with
  | Some (String _ _) => true
  | _ => false
  end.

End PyStr.

(** ** Python floats (binary64) and the three conversions the code uses *)

Module PyFloat.

Definition prec : Z := 53.
Definition emax : Z := 1024.

Inductive arith_error : Type :=
| ZeroDivisionError     (* division by zero *)
| OverflowError         (* result or operand too large for a float *)
| ValueError.           (* cannot convert float NaN to integer *)

(** An [int] operand of [/], as sign and magnitude with exponent 0.  The
    mantissa is not normalised: the division below rounds once, from the
    exact quotient of the two integers, as [int.__truediv__] does. *)
Definition int_operand (n : Z) : spec_float :=
  match n with
  | Z0 => S754_zero false
  | Zpos p => S754_finite false p 0
  | Zneg p => S754_finite true p 0
  end.

Definition finite_or_overflow (x : spec_float) : arith_error + spec_float :=
  match x with
  | S754_infinity _ | S754_nan => inl OverflowError
  | _ => inr x
  end.

(** [a / b] for two [int]s: the correctly rounded quotient *)
Definition int_truediv (a b : Z) : arith_error + spec_float :=
  if b =? 0 then inl ZeroDivisionError
  else finite_or_overflow (SFdiv prec emax (int_operand a) (int_operand b)).

(** the implicit [float(n)] of a mixed [float * int] *)
Definition float_of_int (n : Z) : arith_error + spec_float :=
  finite_or_overflow (binary_normalize prec emax n 0 false).

(** [x * y] for two floats; overflows to an infinity without raising *)
Definition float_mul (x y : spec_float) : spec_float := SFmul prec emax x y.

(** [int(x)]: truncation toward zero *)
Definition int_of_float (x : spec_float) : arith_error + Z :=
  match x with
  | S754_zero _ => inr 0
  | S754_infinity _ => inl OverflowError
  | S754_nan => inl ValueError
  | S754_finite s m e =>
      let a := match e with
               | Zneg _ => Z.shiftr (Zpos m) (- e)
               | _ => Z.shiftl (Zpos m) e
               end in
      inr (if s then - a else a)
  end.

(** [int((a / b) * c)] for three [int]s, the expression of both
    aspect-ratio branches *)
Definition scale (a b c : Z) : arith_error + Z :=
  match int_truediv a b with
  | inl e => inl e
  | inr r =>
      match float_of_int c with
      | inl e => inl e
      | inr fc => int_of_float (float_mul r fc)
      end
  end.

End PyFloat.

(** ** Handler runs: library calls, responses, exceptions *)

Definition bytes := list Byte.byte.

(** What a call into Pillow or the upload object does: it returns a value or
    raises an exception [e], of which the handlers use [str(e)] only. *)
Inductive lib_result (A : Type) : Type :=
| Returns (a : A)
| Raises (str_e : string).
Arguments Returns {A} a.
Arguments Raises {A} str_e.

(** [Image.Resampling], of which the code names one member *)
Inductive Resampling : Type := LANCZOS.

(** [StreamingResponse(output_stream, media_type=..., headers=...)] *)
Record StreamingResponse : Type := mkStreamingResponse {
  body : bytes;
  media_type : string;
  headers : list (string * string)
}.

(** What leaves a handler other than its return value *)
Inductive exn : Type :=
| HTTPException (status_code : Z) (detail : string)
| Uncaught (e : PyFloat.arith_error).

Inductive result (A : Type) : Type :=
| Return (a : A)
| Raise (e : exn).
Arguments Return {A} a.
Arguments Raise {A} e.

Section Handlers.

(** The upload object and the Pillow image, with the members the handlers
    touch. *)
Variable UploadFile : Type.
Variable Image : Type.
Variable file_read : UploadFile -> lib_result bytes.
Variable Image_open : bytes -> lib_result Image.
Variable Image_size : Image -> Z * Z.
Variable Image_format : Image -> option string.
Variable Image_resize : Image -> Z * Z -> Resampling -> lib_result Image.
Variable Image_save : Image -> string -> option Z -> lib_result bytes.

(** The library calls of a run, in program order, with their arguments.
    [CallSave img fmt None] is [img.save(stream, format=fmt)];
    [CallSave img fmt (Some q)] passes [quality=q] as well. *)
Inductive call : Type :=
| CallRead (file : UploadFile)
| CallOpen (contents : bytes)
| CallResize (img : Image) (size : Z * Z) (filter : Resampling)
| CallSave (img : Image) (format : string) (quality : option Z).

(** A computation of a handler: the calls made so far and how it went on *)
Definition handler (A : Type) : Type := list call * result A.

Definition ret {A} (a : A) : handler A := ([], Return a).

Definition raise {A} (e : exn) : handler A := ([], Raise e).

Definition bind {A B} (m : handler A) (k : A -> handler B) : handler B :=
  match m with
  | (t, Return a) => let (t', r) := k a in ((t ++ t')%list, r)
  | (t, Raise e) => (t, Raise e)
  end.

(** [try: x = <library call> / except Exception as e: raise on_exc(str(e))] *)
Definition try_call {A} (c : call) (r : lib_result A)
    (on_exc : string -> exn) : handler A :=
  ([c], match r with
        | Returns a => Return a
        | Raises str_e => Raise (on_exc str_e)
        end).

(** arithmetic outside any [try]: what it raises leaves the handler *)
Definition arith {A} (r : PyFloat.arith_error + A) : handler A :=
  match r with
  | inl e => raise (Uncaught e)
  | inr a => ret a
  end.

Notation "x <- m ;; k" := (bind m (fun x => k))
  (at level 61, m at next level, right associativity).

(** lines 51-56 and 112-117: read the upload and open it *)
Definition read_and_open (file : UploadFile) : handler Image :=
  let on_exc e :=
    HTTPException 400 ("Could not process the image. Error: " ++ e) in
  contents <- try_call (CallRead file) (file_read file) on_exc ;;
  try_call (CallOpen contents) (Image_open contents) on_exc.

(** lines 63-66 and 152-155: [quality] goes to the encoder for the two
    lossy formats only *)
Definition save_quality (format : string) (quality : Z) : option Z :=
  if PyStr.str_in format ["JPEG"; "WEBP"] then Some quality else None.

Definition save_image (img : Image) (format : string) (quality : Z)
    (on_exc : string -> exn) : handler bytes :=
  let q := save_quality format quality in
  try_call (CallSave img format q) (Image_save img format q) on_exc.

Definition content_disposition (filename : string) : list (string * string) :=
  [("Content-Disposition", "attachment; filename=" ++ filename)].

(** *** [convert_image], lines 25-85 *)
Definition convert_image (file : UploadFile) (target_format : string)
    (quality : Z) : handler StreamingResponse :=
  let target_format := PyStr.upper target_format in
  if negb (PyStr.str_in target_format ["WEBP"; "JPEG"; "PNG"; "BMP"]) then
    raise (HTTPException 400
      ("Output format '" ++ target_format ++ "' is not supported."))
  else
    img <- read_and_open file ;;
    output <- save_image img target_format quality (fun e =>
      HTTPException 500
        ("Failed to save the image in the new format. Error: " ++ e)) ;;
    let media_type := "image/" ++ PyStr.lower target_format in
    let filename := "optimized." ++ PyStr.lower target_format in
    ret (mkStreamingResponse output media_type (content_disposition filename)).

(** lines 119-131: the dimensions handed to [img.resize] *)
Definition final_dimensions (width height : option Z) (size : Z * Z)
    : PyFloat.arith_error + Z * Z :=
  let (original_width, original_height) := size in
  match width, height with
  | Some w, None =>
      match PyFloat.scale w original_width original_height with
      | inl e => inl e
      | inr h => inr (w, h)
      end
  | None, Some h =>
      match PyFloat.scale h original_height original_width with
      | inl e => inl e
      | inr w => inr (w, h)
      end
  | Some w, Some h => inr (w, h)
  | None, None => inr (0, 0)   (* excluded by the guard of line 105 *)
  end.

(** line 148: [img.format if img.format else "JPEG"] *)
Definition original_format (img : Image) : string :=
  match Image_format img with
  | Some f => if PyStr.truthy (Some f) then f else "JPEG"
  | None => "JPEG"
  end.

Definition resized_filename (size : Z * Z) (format : string) : string :=
  "resized_" ++ PyStr.str_int (fst size) ++ "x" ++ PyStr.str_int (snd size)
    ++ "." ++ PyStr.lower format.

(** *** [resize_image], lines 93-173 *)
Definition resize_image (file : UploadFile) (width height : option Z)
    (quality : Z) : handler StreamingResponse :=
  match width, height with
  | None, None =>
      raise (HTTPException 400
        "At least 'width' or 'height' must be provided for resizing.")
  | _, _ =>
      img <- read_and_open file ;;
      size <- arith (final_dimensions width height (Image_size img)) ;;
      resized_img <-
        try_call (CallResize img size LANCZOS)
          (Image_resize img size LANCZOS)
          (fun e => HTTPException 500
             ("Failed to resize the image. Error: " ++ e)) ;;
      let original_format := original_format img in
      output <- save_image resized_img original_format quality (fun e =>
        HTTPException 500
          ("Failed to save the resized image. Error: " ++ e)) ;;
      let media_type := "image/" ++ PyStr.lower original_format in
      let filename := resized_filename size original_format in
      ret (mkStreamingResponse output media_type
             (content_disposition filename))
  end.

(** *** The route [/api/v1/convert], lines 20-38

    What the framework does before it calls [convert_image]: an omitted
    [target_format] is "webp" and an omitted [quality] is 85; a
    [target_format] of fewer than 3 or more than 4 characters, or a
    [quality] outside 1..100, fails the [Query] constraints, and the
    framework answers 422 itself. *)
Inductive routed : Type :=
| Unprocessable
| Handled (run : handler StreamingResponse).

Definition convert_route (file : UploadFile) (target_format : option string)
    (quality : option Z) : routed :=
  let target_format :=
    match target_format with Some s => s | None => "webp" end in
  let quality := match quality with Some q => q | None => 85 end in
  if (3 <=? PyStr.len target_format) && (PyStr.len target_format <=? 4)
     && (1 <=? quality) && (quality <=? 100)
  then Handled (convert_image file target_format quality)
  else Unprocessable.

(** the status line of the answer; an exception that no handler catches is
    answered 500 *)
Definition status (r : routed) : Z :=
  match r with
  | Unprocessable => 422
  | Handled (_, Return _) => 200
  | Handled (_, Raise (HTTPException status_code _)) => status_code
  | Handled (_, Raise (Uncaught _)) => 500
  end.

End Handlers.

Arguments CallRead {UploadFile Image} file.
Arguments CallOpen {UploadFile Image} contents.
Arguments CallResize {UploadFile Image} img size filter.
Arguments CallSave {UploadFile Image} img format quality.
Arguments read_and_open {UploadFile Image} file_read Image_open file.
Arguments save_image {UploadFile Image} Image_save img format quality on_exc.
Arguments original_format {Image} Image_format img.
Arguments convert_image {UploadFile Image} file_read Image_open Image_save
  file target_format quality.
Arguments resize_image {UploadFile Image} file_read Image_open Image_size
  Image_format Image_resize Image_save file width height quality.
Arguments Unprocessable {UploadFile Image}.
Arguments Handled {UploadFile Image} run.
Arguments convert_route {UploadFile Image} file_read Image_open Image_save
  file target_format quality.
Arguments status {UploadFile Image} r.

(** ** A small stand-in for the image library

    A deterministic toy codec on which the handlers can be run: an image is
    three bytes (format tag, width, height).  It plays no part in the
    general statements, which hold for every library. *)

Module Fixture.

Record image : Type := mkImage {
  size : Z * Z;
  format : option string
}.

Definition byte_to_Z (b : Byte.byte) : Z := Z.of_N (Byte.to_N b).

Definition byte_of_Z (z : Z) : Byte.byte :=
  match Byte.of_N (Z.to_N (z mod 256)) with
  | Some b => b
  | None => Byte.x00
  end.

Definition format_of_tag (tag : Byte.byte) : option (option string) :=
  match tag with
  | Byte.x00 => Some None
  | Byte.x01 => Some (Some "JPEG")
  | Byte.x02 => Some (Some "PNG")
  | Byte.x03 => Some (Some "GIF")
  | Byte.x04 => Some (Some "WEBP")
  | _ => None
  end.

Definition read (file : bytes) : lib_result bytes := Returns file.

Definition open (contents : bytes) : lib_result image :=
  match contents with
  | [tag; w; h] =>
      match format_of_tag tag with
      | Some f => Returns (mkImage (byte_to_Z w, byte_to_Z h) f)
      | None => Raises "cannot identify image file"
      end
  | _ => Raises "cannot identify image file"
  end.

Definition resize (img : image) (sz : Z * Z) (filter : Resampling)
    : lib_result image :=
  if (0 <? fst sz) && (0 <? snd sz) then Returns (mkImage sz None)
  else Raises "height and width must be > 0".

Definition save (img : image) (fmt : string) (quality : option Z)
    : lib_result bytes :=
  if PyStr.str_in fmt ["JPEG"; "WEBP"; "PNG"; "BMP"; "GIF"] then
    Returns [byte_of_Z (fst (size img)); byte_of_Z (snd (size img));
             byte_of_Z (match quality with Some q => q | None => 0 end)]
  else Raises ("unknown file extension: " ++ fmt).

Definition convert_image := convert_image read open save.
Definition resize_image := resize_image read open size format resize save.

(** uploads: a 100x100 PNG, a 100x50 JPEG, a 100x33 GIF, and no image *)
Definition png_100x100 : bytes := [Byte.x02; Byte.x64; Byte.x64].
Definition jpeg_100x50 : bytes := [Byte.x01; Byte.x64; Byte.x32].
Definition gif_100x33 : bytes := [Byte.x03; Byte.x64; Byte.x21].
Definition garbage : bytes := [Byte.xff; Byte.xfe].

(** what the scenario of the specification returns: a 100x50 JPEG,
    [width=50] *)
Definition resized_jpeg_50x25 : StreamingResponse :=
  {| body := [Byte.x32; Byte.x19; Byte.x55];
     media_type := "image/jpeg";
     headers := [("Content-Disposition",
                  "attachment; filename=resized_50x25.jpeg")] |}.

End Fixture.

(** ** A stand-in that opens lazily

    As Pillow does: [Image.open] reads the header only (format tag, width,
    height); the pixel data, one byte per pixel here, is read by the first
    operation that needs it, which raises when the data was cut short. *)

Module LazyCodec.

Record image : Type := mkImage {
  size : Z * Z;
  format : option string;
  complete : bool
}.

Definition read (file : bytes) : lib_result bytes := Returns file.

Definition open (contents : bytes) : lib_result image :=
  match contents with
  | tag :: w :: h :: data =>
      match Fixture.format_of_tag tag with
      | Some f =>
          let sz := (Fixture.byte_to_Z w, Fixture.byte_to_Z h) in
          Returns (mkImage sz f
                     (Z.of_nat (length data) =? fst sz * snd sz))
      | None => Raises "cannot identify image file"
      end
  | _ => Raises "cannot identify image file"
  end.

Definition resize (img : image) (sz : Z * Z) (filter : Resampling)
    : lib_result image :=
  if complete img then
    if (0 <? fst sz) && (0 <? snd sz) then Returns (mkImage sz None true)
    else Raises "height and width must be > 0"
  else Raises "image file is truncated".

Definition save (img : image) (fmt : string) (quality : option Z)
    : lib_result bytes :=
  if complete img then
    Returns [Fixture.byte_of_Z (fst (size img));
             Fixture.byte_of_Z (snd (size img))]
  else Raises "image file is truncated".

(** a 2x2 PNG cut after the first of its four pixels *)
Definition truncated_png : bytes :=
  [Byte.x02; Byte.x02; Byte.x02; Byte.x00].

End LazyCodec.

(** ** Integers as binary64 values *)

Module PyFloatExact.
Import PyFloat.

(** The number of low zero bits kept when the integer [X], given as the
    mantissa [X * 2^t] with exponent [-t], is stored on 53 bits. *)
Definition stored_shift (X t : Z) : Z := Z.min t (prec - (Z.log2 X + 1)).

(** The binary64 value of a non-zero integer of magnitude [X] below 2^53,
    with the sign [s]: 53 significant bits, nothing rounded away. *)
Definition float_int (s : bool) (X : Z) : spec_float :=
  S754_finite s (Z.to_pos (X * 2 ^ (52 - Z.log2 X))) (Z.log2 X - 52).

End PyFloatExact.

(** ** Facts about the string operations *)

Module PyStrFacts.
Import PyStr.

Lemma lower_upper_char (c : ascii) : lower_char (upper_char c) = lower_char c.
Proof. destruct c as [[] [] [] [] [] [] [] []]; reflexivity. Qed.

Lemma upper_lower_char (c : ascii) : upper_char (lower_char c) = upper_char c.
Proof. destruct c as [[] [] [] [] [] [] [] []]; reflexivity. Qed.

Lemma lower_upper (s : string) : lower (upper s) = lower s.
Proof.
  induction s as [|c s IH]; simpl; [reflexivity|].
  unfold lower, upper in *; simpl.
  now rewrite lower_upper_char, IH.
Qed.

Lemma upper_lower (s : string) : upper (lower s) = upper s.
Proof.
  induction s as [|c s IH]; simpl; [reflexivity|].
  unfold lower, upper in *; simpl.
  now rewrite upper_lower_char, IH.
Qed.

Lemma str_in_spec (x : string) (xs : list string) :
  str_in x xs = true <-> In x xs.
Proof.
  unfold str_in. rewrite existsb_exists. split.
  - intros [y [Hy E]]. apply String.eqb_eq in E. now subst.
  - intros H. exists x. split; [assumption | apply String.eqb_refl].
Qed.

(** Membership of the upper-cased name in the allow-list of line 43 is
    membership of the name, compared without regard to case, in
    webp / jpeg / png / bmp. *)
Lemma allow_list_caseless (s : string) :
  str_in (upper s) ["WEBP"; "JPEG"; "PNG"; "BMP"] = true <->
  In (lower s) ["webp"; "jpeg"; "png"; "bmp"].
Proof.
  rewrite str_in_spec. simpl. split.
  - intros H. rewrite <- (lower_upper s).
    repeat (destruct H as [H|H]; [rewrite <- H; simpl; tauto|]).
    contradiction.
  - intros H. rewrite <- (upper_lower s).
    repeat (destruct H as [H|H]; [rewrite <- H; simpl; tauto|]).
    contradiction.
Qed.

End PyStrFacts.

(** ** Properties of the handlers, for every image library *)

Tactic Notation "unfold_handler" :=
  unfold convert_image, resize_image, read_and_open, save_image, try_call,
    arith, bind, ret, raise.

Tactic Notation "unfold_handler" "in" hyp(H) :=
  unfold convert_image, resize_image, read_and_open, save_image, try_call,
    arith, bind, ret, raise in H.

Section Properties.

Variable UploadFile : Type.
Variable Image : Type.
Variable file_read : UploadFile -> lib_result bytes.
Variable Image_open : bytes -> lib_result Image.
Variable Image_size : Image -> Z * Z.
Variable Image_format : Image -> option string.
Variable Image_resize : Image -> Z * Z -> Resampling -> lib_result Image.
Variable Image_save : Image -> string -> option Z -> lib_result bytes.

Local Abbreviation convert := (convert_image file_read Image_open Image_save).
Local Abbreviation resize :=
  (resize_image file_read Image_open Image_size Image_format Image_resize
     Image_save).
Local Abbreviation fmt_of := (original_format Image_format).

(** C3.  With both [width] and [height] absent, [/api/v1/resize] raises
    [HTTPException(400)] whatever the upload is, and no library call (no
    read of the upload, no decode) has been made by then. *)
Theorem resize_missing_dimensions_400 :
  forall (file : UploadFile) (quality : Z),
    resize file None None quality =
      ([], Raise (HTTPException 400
             "At least 'width' or 'height' must be provided for resizing.")).
Proof. reflexivity. Qed.

(** C4.  When the bytes of the upload are rejected by [Image.open] with an
    error whose text is [e], both endpoints raise [HTTPException(400)],
    for all parameters; and whenever the parameters pass the handler's own
    validation, so that the decoder is reached, the detail is
    "Could not process the image. Error: " followed by [e]. *)
Theorem undecodable_upload_400 :
  forall (file : UploadFile) (contents : bytes) (e : string),
    file_read file = Returns contents ->
    Image_open contents = Raises e ->
    let detail := "Could not process the image. Error: " ++ e in
    (forall tf q, exists d, snd (convert file tf q) = Raise (HTTPException 400 d))
    /\ (forall tf q,
          In (PyStr.lower tf) ["webp"; "jpeg"; "png"; "bmp"] ->
          snd (convert file tf q) = Raise (HTTPException 400 detail))
    /\ (forall w h q, exists d, snd (resize file w h q) = Raise (HTTPException 400 d))
    /\ (forall w h q,
          (w, h) <> (None, None) ->
          snd (resize file w h q) = Raise (HTTPException 400 detail)).
Proof.
  intros file contents e Hread Hopen detail.
  assert (Hc : forall tf q,
             PyStr.str_in (PyStr.upper tf) ["WEBP"; "JPEG"; "PNG"; "BMP"] = true ->
             snd (convert file tf q) = Raise (HTTPException 400 detail)).
  { intros tf q E. unfold_handler. rewrite E, Hread, Hopen. reflexivity. }
  assert (Hr : forall w h q, (w, h) <> (None, None) ->
             snd (resize file w h q) = Raise (HTTPException 400 detail)).
  { intros w h q Hwh. unfold_handler.
    destruct w, h; try congruence; rewrite Hread, Hopen; reflexivity. }
  repeat split.
  - intros tf q.
    destruct (PyStr.str_in (PyStr.upper tf) ["WEBP"; "JPEG"; "PNG"; "BMP"]) eqn:E.
    + eexists. now apply Hc.
    + eexists. unfold convert_image. rewrite E. reflexivity.
  - intros tf q H. apply Hc. now apply PyStrFacts.allow_list_caseless.
  - intros w h q. destruct w as [w|], h as [h|];
      try (eexists; apply Hr; congruence).
    eexists. reflexivity.
  - exact Hr.
Qed.

(** *** What a run of [resize_image] looks like once the upload decodes *)

Lemma original_format_detected (img : Image) (f : string) :
  Image_format img = Some f -> f <> EmptyString -> fmt_of img = f.
Proof.
  intros H Hf. unfold original_format. rewrite H.
  destruct f; [congruence | reflexivity].
Qed.

Lemma original_format_fallback (img : Image) :
  Image_format img = None \/ Image_format img = Some EmptyString ->
  fmt_of img = "JPEG".
Proof. intros [H|H]; unfold original_format; rewrite H; reflexivity. Qed.

Lemma resize_run (file : UploadFile) (width height : option Z) (q : Z)
    (contents : bytes) (img : Image) (size : Z * Z) :
  (width, height) <> (None, None) ->
  file_read file = Returns contents ->
  Image_open contents = Returns img ->
  final_dimensions width height (Image_size img) = inr size ->
  resize file width height q =
    match Image_resize img size LANCZOS with
    | Raises e =>
        ([CallRead file; CallOpen contents; CallResize img size LANCZOS],
         Raise (HTTPException 500
                  ("Failed to resize the image. Error: " ++ e)))
    | Returns resized =>
        let f := fmt_of img in
        ([CallRead file; CallOpen contents; CallResize img size LANCZOS;
          CallSave resized f (save_quality f q)],
         match Image_save resized f (save_quality f q) with
         | Raises e =>
             Raise (HTTPException 500
                      ("Failed to save the resized image. Error: " ++ e))
         | Returns out =>
             Return (mkStreamingResponse out ("image/" ++ PyStr.lower f)
                       (content_disposition (resized_filename size f)))
         end)
    end.
Proof.
  intros Hwh Hread Hopen Hdim. unfold_handler.
  destruct width as [w|], height as [h|]; try congruence;
    rewrite Hread, Hopen, Hdim;
    destruct (Image_resize img size LANCZOS) as [resized|e]; try reflexivity;
    destruct (Image_save resized (fmt_of img) (save_quality (fmt_of img) q));
    reflexivity.
Qed.

Lemma resize_returns_inv (file : UploadFile) (width height : option Z)
    (q : Z) (t : list (call UploadFile Image)) (resp : StreamingResponse) :
  resize file width height q = (t, Return resp) ->
  exists contents img size resized,
    (width, height) <> (None, None)
    /\ file_read file = Returns contents
    /\ Image_open contents = Returns img
    /\ final_dimensions width height (Image_size img) = inr size
    /\ Image_resize img size LANCZOS = Returns resized
    /\ t = [CallRead file; CallOpen contents; CallResize img size LANCZOS;
            CallSave resized (fmt_of img) (save_quality (fmt_of img) q)]
    /\ resp = mkStreamingResponse (body resp)
                ("image/" ++ PyStr.lower (fmt_of img))
                (content_disposition (resized_filename size (fmt_of img)))
    /\ Image_save resized (fmt_of img) (save_quality (fmt_of img) q)
       = Returns (body resp).
Proof.
  intros H.
  assert (Hwh : (width, height) <> (None, None)).
  { intros E. inversion E; subst. discriminate H. }
  destruct (file_read file) as [contents|e] eqn:Hread.
  2:{ unfold_handler in H. rewrite Hread in H.
      destruct width, height; simpl in H; congruence. }
  destruct (Image_open contents) as [img|e] eqn:Hopen.
  2:{ unfold_handler in H. rewrite Hread, Hopen in H.
      destruct width, height; simpl in H; congruence. }
  destruct (final_dimensions width height (Image_size img)) as [e|size] eqn:Hdim.
  1:{ unfold_handler in H. rewrite Hread, Hopen, Hdim in H.
      destruct width, height; simpl in H; congruence. }
  rewrite (resize_run file width height q contents img size Hwh Hread Hopen Hdim) in H.
  destruct (Image_resize img size LANCZOS) as [resized|e] eqn:Hres;
    [|discriminate H].
  cbv zeta in H.
  destruct (Image_save resized (fmt_of img) (save_quality (fmt_of img) q))
    as [out|e] eqn:Hsave; [|discriminate H].
  inversion H; subst; clear H.
  exists contents, img, size, resized. simpl. repeat split; auto.
Qed.

Lemma convert_run (file : UploadFile) (tf : string) (q : Z)
    (contents : bytes) (img : Image) :
  In (PyStr.lower tf) ["webp"; "jpeg"; "png"; "bmp"] ->
  file_read file = Returns contents ->
  Image_open contents = Returns img ->
  let f := PyStr.upper tf in
  convert file tf q =
    ([CallRead file; CallOpen contents; CallSave img f (save_quality f q)],
     match Image_save img f (save_quality f q) with
     | Raises e =>
         Raise (HTTPException 500
                  ("Failed to save the image in the new format. Error: " ++ e))
     | Returns out =>
         Return (mkStreamingResponse out ("image/" ++ PyStr.lower f)
                   (content_disposition ("optimized." ++ PyStr.lower f)))
     end).
Proof.
  intros Hin Hread Hopen f. apply PyStrFacts.allow_list_caseless in Hin.
  subst f. unfold_handler. rewrite Hin, Hread, Hopen. simpl.
  destruct (Image_save img (PyStr.upper tf)
              (save_quality (PyStr.upper tf) q)); reflexivity.
Qed.

Lemma convert_returns_inv (file : UploadFile) (tf : string) (q : Z)
    (t : list (call UploadFile Image)) (resp : StreamingResponse) :
  convert file tf q = (t, Return resp) ->
  exists contents img,
    In (PyStr.lower tf) ["webp"; "jpeg"; "png"; "bmp"]
    /\ file_read file = Returns contents
    /\ Image_open contents = Returns img
    /\ t = [CallRead file; CallOpen contents;
            CallSave img (PyStr.upper tf) (save_quality (PyStr.upper tf) q)]
    /\ resp = mkStreamingResponse (body resp)
                ("image/" ++ PyStr.lower (PyStr.upper tf))
                (content_disposition
                   ("optimized." ++ PyStr.lower (PyStr.upper tf)))
    /\ Image_save img (PyStr.upper tf) (save_quality (PyStr.upper tf) q)
       = Returns (body resp).
Proof.
  intros H.
  destruct (PyStr.str_in (PyStr.upper tf) ["WEBP"; "JPEG"; "PNG"; "BMP"]) eqn:E.
  2:{ unfold convert_image in H. rewrite E in H. discriminate H. }
  apply PyStrFacts.allow_list_caseless in E.
  destruct (file_read file) as [contents|e] eqn:Hread.
  2:{ apply PyStrFacts.allow_list_caseless in E.
      unfold_handler in H. rewrite E, Hread in H. discriminate H. }
  destruct (Image_open contents) as [img|e] eqn:Hopen.
  2:{ apply PyStrFacts.allow_list_caseless in E.
      unfold_handler in H. rewrite E, Hread, Hopen in H. discriminate H. }
  rewrite (convert_run file tf q contents img E Hread Hopen) in H.
  cbv zeta in H.
  destruct (Image_save img (PyStr.upper tf) (save_quality (PyStr.upper tf) q))
    as [out|e] eqn:Hsave; [|discriminate H].
  inversion H; subst; clear H.
  exists contents, img. simpl. repeat split; auto.
Qed.

Lemma save_quality_nonlossy (f : string) (q q' : Z) :
  ~ In f ["JPEG"; "WEBP"] -> save_quality f q = save_quality f q'.
Proof.
  intros H. unfold save_quality.
  destruct (PyStr.str_in f ["JPEG"; "WEBP"]) eqn:E; [|reflexivity].
  apply PyStrFacts.str_in_spec in E. contradiction.
Qed.

(** C5.  A resize request that succeeds encodes its output in the format
    [fmt] that [Image.open] detected in the upload, or in JPEG when none was
    detected: the one [save] call of the run carries [fmt], the body of the
    response is what that call produced, the Content-Type is
    [image/<fmt lower-cased>] and the file name ends in
    [.<fmt lower-cased>].  A conversion that succeeds encodes in the
    upper-cased [target_format] of the request instead. *)
Theorem resize_output_in_source_format :
  (forall file width height q t resp,
     resize file width height q = (t, Return resp) ->
     exists contents img size resized fmt,
       file_read file = Returns contents
       /\ Image_open contents = Returns img
       /\ (Image_format img = None \/ Image_format img = Some EmptyString ->
           fmt = "JPEG")
       /\ (forall f, Image_format img = Some f -> f <> EmptyString -> fmt = f)
       /\ In (CallSave resized fmt (save_quality fmt q)) t
       /\ (forall i f oq, In (CallSave i f oq) t -> f = fmt)
       /\ Image_save resized fmt (save_quality fmt q) = Returns (body resp)
       /\ media_type resp = "image/" ++ PyStr.lower fmt
       /\ headers resp =
            [("Content-Disposition",
              "attachment; filename=resized_" ++ PyStr.str_int (fst size)
                ++ "x" ++ PyStr.str_int (snd size) ++ "."
                ++ PyStr.lower fmt)])
  /\ (forall file tf q t resp,
        convert file tf q = (t, Return resp) ->
        exists img,
          In (CallSave img (PyStr.upper tf)
                (save_quality (PyStr.upper tf) q)) t
          /\ (forall i f oq, In (CallSave i f oq) t -> f = PyStr.upper tf)
          /\ Image_save img (PyStr.upper tf)
               (save_quality (PyStr.upper tf) q) = Returns (body resp)
          /\ media_type resp = "image/" ++ PyStr.lower (PyStr.upper tf)).
Proof.
  split.
  - intros file width height q t resp H.
    apply resize_returns_inv in H.
    destruct H as (contents & img & size & resized & _ & Hread & Hopen & _
                   & _ & Ht & Hresp & Hsave).
    exists contents, img, size, resized, (fmt_of img).
    repeat split; auto.
    + apply original_format_fallback.
    + intros f Hf Hne. now apply original_format_detected.
    + subst t. simpl. tauto.
    + intros i f oq Hin. subst t. simpl in Hin.
      repeat (destruct Hin as [Hin|Hin]; try discriminate Hin).
      * now inversion Hin.
      * contradiction.
    + rewrite Hresp. reflexivity.
    + rewrite Hresp. reflexivity.
  - intros file tf q t resp H.
    apply convert_returns_inv in H.
    destruct H as (contents & img & _ & _ & _ & Ht & Hresp & Hsave).
    exists img. repeat split; auto.
    + subst t. simpl. tauto.
    + intros i f oq Hin. subst t. simpl in Hin.
      repeat (destruct Hin as [Hin|Hin]; try discriminate Hin).
      * now inversion Hin.
      * contradiction.
    + rewrite Hresp. reflexivity.
Qed.

(** C6.  A resize request that supplies one dimension only and succeeds
    names its file [resized_<width>x<height>.<format lower-cased>], where
    (width, height) is the size handed to the one [Image.resize] call of
    the run: the supplied dimension, and the other one as the aspect-ratio
    arithmetic computed it from the size of the image. *)
Theorem resize_filename_final_dimensions :
  forall file width height q t resp,
    width = None \/ height = None ->
    resize file width height q = (t, Return resp) ->
    exists img size,
      In (CallResize img size LANCZOS) t
      /\ (forall i sz flt, In (CallResize i sz flt) t -> sz = size)
      /\ headers resp =
           [("Content-Disposition",
             "attachment; filename=resized_" ++ PyStr.str_int (fst size)
               ++ "x" ++ PyStr.str_int (snd size) ++ "."
               ++ PyStr.lower (fmt_of img))]
      /\ (forall w, width = Some w ->
            fst size = w
            /\ PyFloat.scale w (fst (Image_size img)) (snd (Image_size img))
               = inr (snd size))
      /\ (forall h, height = Some h ->
            snd size = h
            /\ PyFloat.scale h (snd (Image_size img)) (fst (Image_size img))
               = inr (fst size)).
Proof.
  intros file width height q t resp Hone H.
  apply resize_returns_inv in H.
  destruct H as (contents & img & size & resized & Hwh & _ & _ & Hdim
                 & _ & Ht & Hresp & _).
  exists img, size.
  split; [subst t; simpl; tauto|].
  split.
  { intros i sz flt Hin. subst t. simpl in Hin.
    repeat (destruct Hin as [Hin|Hin]; try discriminate Hin);
      [now inversion Hin | contradiction]. }
  split; [rewrite Hresp; reflexivity|].
  destruct (Image_size img) as [W0 H0]. simpl in *.
  split.
  - intros w ->. destruct Hone as [Hone|Hone]; [discriminate|]. subst height.
    destruct (PyFloat.scale w W0 H0) as [e|h']; inversion Hdim; subst.
    split; reflexivity.
  - intros h ->. destruct Hone as [Hone|Hone]; [|discriminate]. subst width.
    destruct (PyFloat.scale h H0 W0) as [e|w']; inversion Hdim; subst.
    split; reflexivity.
Qed.

Lemma convert_saves (file : UploadFile) (tf : string) (q : Z) :
  forall img f oq,
    In (CallSave img f oq) (fst (convert file tf q)) ->
    f = PyStr.upper tf /\ oq = save_quality f q.
Proof.
  intros img f oq. unfold_handler.
  destruct (PyStr.str_in (PyStr.upper tf) ["WEBP"; "JPEG"; "PNG"; "BMP"]);
    cbn [negb fst In app]; [|tauto].
  destruct (file_read file) as [contents|e]; cbn [fst In app];
    [|intros [H|[]]; discriminate H].
  destruct (Image_open contents) as [i|e]; cbn [fst In app];
    [|intros [H|[H|[]]]; discriminate H].
  destruct (Image_save i (PyStr.upper tf) (save_quality (PyStr.upper tf) q));
    cbn [fst In app];
    (intros [H|[H|[H|[]]]]; try discriminate H;
     inversion H; subst; split; reflexivity).
Qed.

Lemma resize_saves (file : UploadFile) (width height : option Z) (q : Z) :
  forall img f oq,
    In (CallSave img f oq) (fst (resize file width height q)) ->
    oq = save_quality f q.
Proof.
  intros img f oq.
  unfold_handler.
  destruct width as [w|], height as [h|]; cbn [fst In]; try tauto.
  all: destruct (file_read file) as [contents|e]; cbn [fst In app];
         [|intros [H|[]]; discriminate H].
  all: destruct (Image_open contents) as [i|e]; cbn [fst In app];
         [|intros [H|[H|[]]]; discriminate H].
  all: destruct (final_dimensions _ _ (Image_size i)) as [e|size];
         cbn [fst In app];
         [intros [H|[H|[]]]; discriminate H|].
  all: destruct (Image_resize i size LANCZOS) as [resized|e];
         cbn [fst In app];
         [|intros [H|[H|[H|[]]]]; discriminate H].
  all: destruct (Image_save resized (fmt_of i) (save_quality (fmt_of i) q));
         cbn [fst In app];
         (intros [H|[H|[H|[H|[]]]]]; try discriminate H;
          inversion H; subst; reflexivity).
Qed.

(** C7.  [quality] is handed to the encoder exactly when the output format
    is JPEG or WEBP: every [save] call of a run of either handler carries
    [quality] for these two formats and no quality setting for any other.
    Hence, for one upload and an output format other than these two (PNG and
    BMP among them), two requests that differ in [quality] only have the
    same run and the same response, on the conversion path and on the resize
    path. *)
Theorem quality_for_lossy_formats_only :
  forall file tf width height q q',
    (forall img f oq,
       In (CallSave img f oq) (fst (convert file tf q)) ->
       oq = if PyStr.str_in f ["JPEG"; "WEBP"] then Some q else None)
    /\ (forall img f oq,
          In (CallSave img f oq) (fst (resize file width height q)) ->
          oq = if PyStr.str_in f ["JPEG"; "WEBP"] then Some q else None)
    /\ (~ In (PyStr.upper tf) ["JPEG"; "WEBP"] ->
        convert file tf q = convert file tf q')
    /\ ((forall contents img,
           file_read file = Returns contents ->
           Image_open contents = Returns img ->
           ~ In (fmt_of img) ["JPEG"; "WEBP"]) ->
        resize file width height q = resize file width height q').
Proof.
  intros file tf width height q q'. repeat split.
  - intros img f oq H. now apply convert_saves in H.
  - intros img f oq H. now apply resize_saves in H.
  - intros Hf. unfold_handler.
    rewrite (save_quality_nonlossy _ q q' Hf). reflexivity.
  - intros Hf. unfold_handler.
    destruct width as [w|], height as [h|]; try reflexivity;
      (destruct (file_read file) as [contents|e] eqn:Hread; [|reflexivity]);
      (destruct (Image_open contents) as [img|e] eqn:Hopen; [|reflexivity]);
      rewrite (save_quality_nonlossy _ q q' (Hf contents img eq_refl Hopen));
      reflexivity.
Qed.

(** C8.  When both [width] and [height] are supplied and the upload decodes,
    [Image.resize] is called with exactly that pair, whatever the size of
    the image, and with no other size. *)
Theorem resize_both_dimensions_exact :
  forall file w h q contents img,
    file_read file = Returns contents ->
    Image_open contents = Returns img ->
    final_dimensions (Some w) (Some h) (Image_size img) = inr (w, h)
    /\ In (CallResize img (w, h) LANCZOS)
         (fst (resize file (Some w) (Some h) q))
    /\ (forall i sz flt,
          In (CallResize i sz flt) (fst (resize file (Some w) (Some h) q)) ->
          i = img /\ sz = (w, h) /\ flt = LANCZOS).
Proof.
  intros file w h q contents img Hread Hopen.
  assert (Hdim : final_dimensions (Some w) (Some h) (Image_size img)
                 = inr (w, h)).
  { destruct (Image_size img); reflexivity. }
  assert (Hwh : (Some w, Some h) <> (@None Z, @None Z)) by discriminate.
  rewrite (resize_run file _ _ q contents img (w, h) Hwh Hread Hopen Hdim).
  split; [exact Hdim|].
  destruct (Image_resize img (w, h) LANCZOS) as [resized|e]; simpl.
  - split; [tauto|].
    intros i sz flt [H|[H|[H|[H|[]]]]]; try discriminate H.
    inversion H; subst. repeat split.
  - split; [tauto|].
    intros i sz flt [H|[H|[H|[]]]]; try discriminate H.
    inversion H; subst. repeat split.
Qed.

(** C10.  The resize path has no allow-list: whatever non-empty format name
    [f] the decoder reports for the upload (GIF, TIFF, ...), the handler
    calls the encoder with [f]; when the encoder returns, the response has
    Content-Type [image/<f lower-cased>] and a file name ending in
    [.<f lower-cased>]; when it raises, the handler raises
    [HTTPException(500)]. *)
Theorem resize_format_not_restricted :
  forall file width height q contents img size resized f,
    (width, height) <> (None, None) ->
    file_read file = Returns contents ->
    Image_open contents = Returns img ->
    Image_format img = Some f ->
    f <> EmptyString ->
    final_dimensions width height (Image_size img) = inr size ->
    Image_resize img size LANCZOS = Returns resized ->
    resize file width height q =
      ([CallRead file; CallOpen contents; CallResize img size LANCZOS;
        CallSave resized f
          (if PyStr.str_in f ["JPEG"; "WEBP"] then Some q else None)],
       match Image_save resized f
               (if PyStr.str_in f ["JPEG"; "WEBP"] then Some q else None) with
       | Returns out =>
           Return
             {| body := out;
                media_type := "image/" ++ PyStr.lower f;
                headers :=
                  [("Content-Disposition",
                    "attachment; filename=resized_"
                      ++ PyStr.str_int (fst size) ++ "x"
                      ++ PyStr.str_int (snd size) ++ "." ++ PyStr.lower f)] |}
       | Raises e =>
           Raise (HTTPException 500
                    ("Failed to save the resized image. Error: " ++ e))
       end).
Proof.
  intros file width height q contents img size resized f
    Hwh Hread Hopen Hfmt Hne Hdim Hres.
  rewrite (resize_run file _ _ q contents img size Hwh Hread Hopen Hdim).
  rewrite Hres. cbv zeta.
  rewrite (original_format_detected img f Hfmt Hne).
  unfold save_quality.
  destruct (Image_save resized f _); reflexivity.
Qed.

End Properties.

(** ** The dimension arithmetic on concrete sizes *)

(** The example of the specification: a 100x33 image asked for width 10 gets
    height 3. *)
Lemma width_10_on_100x33 :
  final_dimensions (Some 10) None (100, 33) = inr (10, 3).
Proof. vm_compute. reflexivity. Qed.

(** The scenario of the specification: a 100x50 image asked for width 50
    gets height 25. *)
Lemma width_50_on_100x50 :
  final_dimensions (Some 50) None (100, 50) = inr (50, 25).
Proof. vm_compute. reflexivity. Qed.

(** [29 / 100] is the double nearest to 0.29, which lies below 0.29; its
    product with 100 rounds to the double just below 29. *)
Lemma product_29_100_100_below_29 :
  match PyFloat.int_truediv 29 100 with
  | inr r =>
      SFcompare (PyFloat.float_mul r (PyFloat.int_operand 100))
        (PyFloat.int_operand 29) = Some Lt
      /\ PyFloat.float_mul r (PyFloat.int_operand 100)
         = S754_finite false 8162774324609023 (-48)
  | inl _ => False
  end.
Proof. vm_compute. split; reflexivity. Qed.

(** C1.  On a 100x100 image, a request for width 29 alone is resampled to
    height 28, and a request for height 29 alone to width 28, although
    floor(29 * 100 / 100) = 29: the code truncates the binary64 product
    (29 / 100) * 100 = 28.999999999999996.  On the 100x33 image of the
    specification's example, width 10 does give height 3. *)
Theorem aspect_ratio_100x100_w29 :
  final_dimensions (Some 29) None (100, 100) = inr (29, 28)
  /\ final_dimensions None (Some 29) (100, 100) = inr (28, 29)
  /\ (29 * 100) / 100 = 29
  /\ final_dimensions (Some 10) None (100, 33) = inr (10, (10 * 33) / 100).
Proof. vm_compute. repeat split; reflexivity. Qed.

(** ** The handlers run on the stand-in library *)

Module Runs.
Import Fixture.

Lemma undecodable_upload_400_witness :
  snd (Fixture.convert_image garbage "png" 85) =
    Raise (HTTPException 400
      "Could not process the image. Error: cannot identify image file")
  /\ snd (Fixture.resize_image garbage (Some 10) None 85) =
       Raise (HTTPException 400
         "Could not process the image. Error: cannot identify image file").
Proof.
  destruct (undecodable_upload_400 _ _ read open size format resize save
              garbage garbage "cannot identify image file"
              eq_refl eq_refl) as (_ & Hc & _ & Hr).
  split.
  - apply (Hc "png" 85). simpl. tauto.
  - apply (Hr (Some 10) None 85). discriminate.
Defined.

Lemma resize_jpeg_100x50_width_50 :
  Fixture.resize_image jpeg_100x50 (Some 50) None 85 =
    ([CallRead jpeg_100x50; CallOpen jpeg_100x50;
      CallResize (mkImage (100, 50) (Some "JPEG")) (50, 25) LANCZOS;
      CallSave (mkImage (50, 25) None) "JPEG" (Some 85)],
     Return resized_jpeg_50x25).
Proof. vm_compute. reflexivity. Qed.

Lemma convert_jpeg_100x50_to_png :
  Fixture.convert_image jpeg_100x50 "Png" 50 =
    ([CallRead jpeg_100x50; CallOpen jpeg_100x50;
      CallSave (mkImage (100, 50) (Some "JPEG")) "PNG" None],
     Return {| body := [Byte.x64; Byte.x32; Byte.x00];
               media_type := "image/png";
               headers := [("Content-Disposition",
                            "attachment; filename=optimized.png")] |}).
Proof. vm_compute. reflexivity. Qed.

Lemma resize_output_in_source_format_witness :
  (exists contents img sz resized fmt,
     read jpeg_100x50 = Returns contents
     /\ open contents = Returns img
     /\ (format img = None \/ format img = Some EmptyString -> fmt = "JPEG")
     /\ (forall f, format img = Some f -> f <> EmptyString -> fmt = f)
     /\ In (CallSave resized fmt (save_quality fmt 85))
          (fst (Fixture.resize_image jpeg_100x50 (Some 50) None 85))
     /\ (forall i f oq,
           In (CallSave i f oq)
             (fst (Fixture.resize_image jpeg_100x50 (Some 50) None 85)) ->
           f = fmt)
     /\ save resized fmt (save_quality fmt 85)
        = Returns (body resized_jpeg_50x25)
     /\ media_type resized_jpeg_50x25 = "image/" ++ PyStr.lower fmt
     /\ headers resized_jpeg_50x25 =
          [("Content-Disposition",
            "attachment; filename=resized_" ++ PyStr.str_int (fst sz)
              ++ "x" ++ PyStr.str_int (snd sz) ++ "." ++ PyStr.lower fmt)])
  /\ (exists img,
        In (CallSave img (PyStr.upper "Png")
              (save_quality (PyStr.upper "Png") 50))
          (fst (Fixture.convert_image jpeg_100x50 "Png" 50))
        /\ media_type
             {| body := [Byte.x64; Byte.x32; Byte.x00];
                media_type := "image/png";
                headers := [("Content-Disposition",
                             "attachment; filename=optimized.png")] |}
           = "image/" ++ PyStr.lower (PyStr.upper "Png")).
Proof.
  destruct (resize_output_in_source_format _ _ read open size format resize
              save) as [Hr Hc].
  split.
  - rewrite resize_jpeg_100x50_width_50.
    exact (Hr jpeg_100x50 (Some 50) None 85 _ _ resize_jpeg_100x50_width_50).
  - rewrite convert_jpeg_100x50_to_png.
    destruct (Hc jpeg_100x50 "Png" 50 _ _ convert_jpeg_100x50_to_png)
      as (img & Hin & _ & _ & Hmt).
    exists img. split; assumption.
Defined.

Lemma resize_filename_final_dimensions_witness :
  exists img sz,
    In (CallResize img sz LANCZOS)
      (fst (Fixture.resize_image jpeg_100x50 (Some 50) None 85))
    /\ sz = (50, 25)
    /\ headers resized_jpeg_50x25 =
         [("Content-Disposition", "attachment; filename=resized_50x25.jpeg")].
Proof.
  destruct (resize_filename_final_dimensions _ _ read open size format
              resize save jpeg_100x50 (Some 50) None 85 _ _
              (or_intror eq_refl) resize_jpeg_100x50_width_50)
    as (img & sz & Hin & Hall & Hhd & _ & _).
  exists img, sz. rewrite resize_jpeg_100x50_width_50.
  split; [exact Hin|]. split; [|reflexivity].
  symmetry.
  apply (Hall (mkImage (100, 50) (Some "JPEG")) (50, 25) LANCZOS).
  simpl. tauto.
Defined.

Lemma quality_for_lossy_formats_only_witness :
  Fixture.convert_image jpeg_100x50 "png" 1
    = Fixture.convert_image jpeg_100x50 "png" 100
  /\ Fixture.resize_image png_100x100 (Some 40) (Some 30) 1
     = Fixture.resize_image png_100x100 (Some 40) (Some 30) 100
  /\ (forall img f oq,
        In (CallSave img f oq)
          (fst (Fixture.convert_image jpeg_100x50 "webp" 1)) ->
        oq = Some 1).
Proof.
  destruct (quality_for_lossy_formats_only _ _ read open size format resize
              save jpeg_100x50 "png" (Some 40) (Some 30) 1 100)
    as (_ & _ & Hc & _).
  destruct (quality_for_lossy_formats_only _ _ read open size format resize
              save png_100x100 "webp" (Some 40) (Some 30) 1 100)
    as (_ & _ & _ & Hr).
  destruct (quality_for_lossy_formats_only _ _ read open size format resize
              save jpeg_100x50 "webp" (Some 40) (Some 30) 1 100)
    as (Hs & _ & _ & _).
  split; [|split].
  - apply Hc. simpl. intuition discriminate.
  - apply Hr. intros contents img Hread Hopen.
    inversion Hread; subst contents. inversion Hopen; subst img.
    simpl. intuition discriminate.
  - intros img f oq Hin. rewrite (Hs img f oq Hin).
    vm_compute in Hin.
    destruct Hin as [H|[H|[H|[]]]]; try discriminate H.
    inversion H. reflexivity.
Defined.

Lemma resize_both_dimensions_exact_witness :
  final_dimensions (Some 7) (Some 90) (size (mkImage (100, 50) (Some "JPEG")))
    = inr (7, 90)
  /\ In (CallResize (mkImage (100, 50) (Some "JPEG")) (7, 90) LANCZOS)
       (fst (Fixture.resize_image jpeg_100x50 (Some 7) (Some 90) 85)).
Proof.
  destruct (resize_both_dimensions_exact _ _ read open size format resize
              save jpeg_100x50 7 90 85 jpeg_100x50
              (mkImage (100, 50) (Some "JPEG")) eq_refl eq_refl)
    as (Hdim & Hin & _).
  split; assumption.
Defined.

Lemma resize_format_not_restricted_witness :
  Fixture.resize_image gif_100x33 (Some 10) None 85 =
    ([CallRead gif_100x33; CallOpen gif_100x33;
      CallResize (mkImage (100, 33) (Some "GIF")) (10, 3) LANCZOS;
      CallSave (mkImage (10, 3) None) "GIF" None],
     Return {| body := [Byte.x0a; Byte.x03; Byte.x00];
               media_type := "image/gif";
               headers := [("Content-Disposition",
                            "attachment; filename=resized_10x3.gif")] |}).
Proof.
  assert (Hwh : (Some 10, @None Z) <> (None, None)) by discriminate.
  assert (Hne : "GIF" <> EmptyString) by discriminate.
  exact (resize_format_not_restricted _ _ read open size format resize save
           gif_100x33 (Some 10) None 85 gif_100x33
           (mkImage (100, 33) (Some "GIF")) (10, 3) (mkImage (10, 3) None)
           "GIF" Hwh eq_refl eq_refl eq_refl Hne eq_refl eq_refl).
Defined.

End Runs.

(** ** Exact cases of the dimension arithmetic *)

Module PyFloatFacts.
Import PyFloat PyFloatExact.

Lemma digits2_pos_size (p : positive) : digits2_pos p = Pos.size p.
Proof. induction p; simpl; congruence. Qed.

Lemma Zdigits2_log2 (x : Z) : 0 < x -> Zdigits2 x = Z.log2 x + 1.
Proof.
  destruct x as [|p|p]; try lia. intros _. simpl.
  destruct p; simpl; rewrite ?digits2_pos_size; lia.
Qed.

Lemma iter_pos_nat {A} (f : A -> A) (p : positive) :
  forall x, iter_pos f p x = Nat.iter (Pos.to_nat p) f x.
Proof.
  induction p as [p IH|p IH|]; intros x; simpl iter_pos.
  - rewrite !IH, <- !Nat.iter_add.
    replace (Pos.to_nat p~1) with (Pos.to_nat p + Pos.to_nat p + 1)%nat by lia.
    rewrite (Nat.iter_add _ 1). reflexivity.
  - rewrite !IH, <- !Nat.iter_add. f_equal. lia.
  - reflexivity.
Qed.

Lemma shr_1_iter_exact (n : nat) :
  forall X, 0 < X ->
    Nat.iter n shr_1 (Build_shr_record (X * 2 ^ Z.of_nat n) false false)
    = Build_shr_record X false false.
Proof.
  induction n as [|n IH]; intros X HX.
  - simpl. f_equal. lia.
  - rewrite Nat2Z.inj_succ, Z.pow_succ_r by lia.
    replace (X * (2 * 2 ^ Z.of_nat n)) with ((2 * X) * 2 ^ Z.of_nat n) by ring.
    rewrite Nat.iter_succ, (IH (2 * X)) by lia.
    destruct X as [|p|p]; try lia. reflexivity.
Qed.

Lemma shr_fexp_exact (X t : Z) :
  0 < X < 2 ^ 53 -> 0 <= t ->
  shr_fexp prec emax (X * 2 ^ t) (- t) loc_Exact
  = (Build_shr_record (X * 2 ^ stored_shift X t) false false,
     - stored_shift X t).
Proof.
  intros HX Ht. unfold shr_fexp, stored_shift.
  assert (Hl : 0 <= Z.log2 X < 53).
  { split; [apply Z.log2_nonneg|]. apply Z.log2_lt_pow2; lia. }
  rewrite Zdigits2_log2 by nia.
  rewrite Z.log2_mul_pow2 by lia.
  unfold fexp, emin, prec, emax. simpl shr_record_of_loc.
  remember (Z.max (t + Z.log2 X + 1 + - t - 53) (3 - 1024 - 53) - - t)
    as n eqn:Hn.
  assert (En : n = Z.log2 X + 1 - 53 + t) by lia. clear Hn.
  unfold shr. destruct n as [|p|p].
  - rewrite Z.min_l by lia. reflexivity.
  - rewrite Z.min_r by lia. rewrite iter_pos_nat.
    replace (X * 2 ^ t) with
      ((X * 2 ^ (53 - (Z.log2 X + 1))) * 2 ^ Z.of_nat (Pos.to_nat p)).
    2:{ rewrite positive_nat_Z, <- Z.mul_assoc, <- Z.pow_add_r by lia.
        f_equal. f_equal. lia. }
    rewrite shr_1_iter_exact by nia. f_equal. lia.
  - rewrite Z.min_l by lia. reflexivity.
Qed.

Lemma stored_shift_idem (X t : Z) :
  stored_shift X (stored_shift X t) = stored_shift X t.
Proof. unfold stored_shift. lia. Qed.

Lemma stored_shift_range (X t : Z) :
  0 < X < 2 ^ 53 -> 0 <= t -> 0 <= stored_shift X t <= t.
Proof.
  intros HX Ht. unfold stored_shift, prec.
  assert (Z.log2 X < 53) by (apply Z.log2_lt_pow2; lia). lia.
Qed.

(** Rounding an integer below 2^53 does not change it. *)
Lemma binary_round_aux_exact (s : bool) (X t : Z) :
  0 < X < 2 ^ 53 -> 0 <= t ->
  binary_round_aux prec emax s (X * 2 ^ t) (- t) loc_Exact
  = S754_finite s (Z.to_pos (X * 2 ^ stored_shift X t)) (- stored_shift X t).
Proof.
  intros HX Ht. unfold binary_round_aux.
  rewrite shr_fexp_exact by assumption.
  pose proof (stored_shift_range X t HX Ht) as Hr.
  cbn [shr_m loc_of_shr_record round_nearest_even].
  rewrite shr_fexp_exact by lia. rewrite stored_shift_idem.
  cbn [shr_m].
  assert (Hp : 0 < X * 2 ^ stored_shift X t) by (apply Z.mul_pos_pos; lia).
  destruct (X * 2 ^ stored_shift X t) as [|m|m] eqn:Em; try lia.
  replace (- stored_shift X t <=? emax - prec) with true.
  - reflexivity.
  - symmetry. apply Z.leb_le. unfold emax, prec. lia.
Qed.

Lemma int_of_float_exact (s : bool) (X t : Z) :
  0 < X -> 0 <= t ->
  int_of_float (S754_finite s (Z.to_pos (X * 2 ^ t)) (- t))
  = inr (if s then - X else X).
Proof.
  intros HX Ht. unfold int_of_float.
  assert (Hp : 0 < X * 2 ^ t) by (apply Z.mul_pos_pos; lia).
  rewrite Z2Pos.id by lia.
  destruct t as [|p|p]; try lia.
  - change (- 0) with 0. cbv iota zeta.
    rewrite Z.shiftl_0_r, Z.pow_0_r, Z.mul_1_r. reflexivity.
  - change (- Z.pos p) with (Z.neg p). cbv iota zeta.
    change (- Z.neg p) with (Z.pos p).
    rewrite <- Z.shiftl_mul_pow2 by lia.
    rewrite Z.shiftr_shiftl_l by lia.
    rewrite Z.sub_diag, Z.shiftl_0_r. reflexivity.
Qed.


Lemma log2_below_53 (X : Z) : 0 < X < 2 ^ 53 -> 0 <= Z.log2 X < 53.
Proof.
  intros HX. split; [apply Z.log2_nonneg|]. apply Z.log2_lt_pow2; lia.
Qed.

Lemma round_to_float_int (s : bool) (X t : Z) :
  0 < X < 2 ^ 53 -> 52 - Z.log2 X <= t ->
  binary_round_aux prec emax s (X * 2 ^ t) (- t) loc_Exact = float_int s X.
Proof.
  intros HX Ht. pose proof (log2_below_53 X HX).
  rewrite binary_round_aux_exact by lia.
  unfold float_int, stored_shift, prec.
  rewrite Z.min_r by lia.
  replace (53 - (Z.log2 X + 1)) with (52 - Z.log2 X) by lia.
  f_equal. lia.
Qed.

Lemma int_of_float_int (s : bool) (X : Z) :
  0 < X < 2 ^ 53 -> int_of_float (float_int s X) = inr (if s then - X else X).
Proof.
  intros HX. pose proof (log2_below_53 X HX). unfold float_int.
  replace (Z.log2 X - 52) with (- (52 - Z.log2 X)) by lia.
  apply int_of_float_exact; lia.
Qed.

Lemma fexp_binary64 (e : Z) : fexp prec emax e = Z.max (e - 53) (- 1074).
Proof. reflexivity. Qed.

Lemma pos_iter_xO (m p : positive) :
  Z.pos (Pos.iter xO m p) = Z.pos m * 2 ^ Z.pos p.
Proof.
  induction p as [|p IH] using Pos.peano_ind.
  - cbn [Pos.iter]. rewrite Pos2Z.inj_xO. change (2 ^ 1) with 2. ring.
  - rewrite Pos.iter_succ, Pos2Z.inj_xO, IH, Pos2Z.inj_succ, Z.pow_succ_r
      by lia.
    ring.
Qed.

Lemma float_of_int_exact (c : Z) :
  0 < c < 2 ^ 53 -> float_of_int c = inr (float_int false c).
Proof.
  intros Hc. pose proof (log2_below_53 c Hc) as Hl.
  destruct c as [|m|m]; try lia.
  unfold float_of_int, binary_normalize, binary_round.
  change (Z.pos (digits2_pos m)) with (Zdigits2 (Z.pos m)).
  rewrite Zdigits2_log2 by lia.
  rewrite fexp_binary64. unfold shl_align.
  remember (Z.max (Z.log2 (Z.pos m) + 1 + 0 - 53) (- 1074) - 0) as n eqn:Hn.
  assert (En : n = Z.log2 (Z.pos m) - 52) by lia.
  assert (Em : Z.max (Z.log2 (Z.pos m) + 1 + 0 - 53) (- 1074) = n) by lia.
  rewrite Em. clear Hn Em.
  destruct n as [|p|p]; try lia.
  - replace (Z.pos m) with (Z.pos m * 2 ^ 0) at 1 by lia.
    change 0 with (- 0) at 2.
    rewrite (round_to_float_int false (Z.pos m) 0) by lia. reflexivity.
  - rewrite pos_iter_xO.
    change (Z.neg p) with (- Z.pos p).
    rewrite (round_to_float_int false (Z.pos m) (Z.pos p)) by lia. reflexivity.
Qed.

Lemma div_eucl_pair (a b : Z) : Z.div_eucl a b = (a / b, a mod b).
Proof. unfold Z.div, Z.modulo. destruct (Z.div_eucl a b). reflexivity. Qed.

Lemma new_location_zero (n : Z) : new_location n 0 = loc_Exact.
Proof. unfold new_location. destruct (Z.even n); reflexivity. Qed.

(** The quotient of [X * b] by [b] is the float of [X]. *)
Lemma SFdiv_multiple (s : bool) (X b : Z) :
  0 < X < 2 ^ 53 -> 0 < b ->
  SFdiv prec emax (S754_finite s (Z.to_pos (X * b)) 0)
    (S754_finite false (Z.to_pos b) 0)
  = float_int s X.
Proof.
  intros HX Hb. pose proof (log2_below_53 X HX) as Hl.
  assert (HXb : 0 < X * b) by (apply Z.mul_pos_pos; lia).
  unfold SFdiv, SFdiv_core_binary.
  rewrite !Z2Pos.id by lia.
  rewrite !Zdigits2_log2 by lia.
  pose proof (Z.log2_mul_below X b ltac:(lia) Hb) as Hlo.
  pose proof (Z.log2_mul_above X b ltac:(lia) ltac:(lia)) as Hhi.
  rewrite fexp_binary64.
  remember (Z.min (Z.max (Z.log2 (X * b) + 1 + 0 - (Z.log2 b + 1 + 0) - 53)
                         (- 1074)) (0 - 0)) as e' eqn:He'.
  assert (Ee : e' = Z.log2 (X * b) - Z.log2 b - 53) by lia. clear He'.
  remember (0 - 0 - e') as sh eqn:Hsh.
  assert (Hm : match sh with
               | 0 => X * b
               | Z.pos _ => Z.shiftl (X * b) sh
               | Z.neg _ => 0
               end = (X * 2 ^ sh) * b).
  { destruct sh as [|p|p]; try lia.
    rewrite Z.shiftl_mul_pow2 by lia. ring. }
  rewrite Hm, div_eucl_pair, Z.div_mul, Z.mod_mul by lia.
  rewrite new_location_zero. rewrite xorb_false_r.
  replace e' with (- sh) by lia.
  apply round_to_float_int; lia.
Qed.

Lemma SFmul_float_int (s : bool) (X Y : Z) :
  0 < X -> 0 < Y -> X * Y < 2 ^ 53 ->
  float_mul (float_int s X) (float_int false Y) = float_int s (X * Y).
Proof.
  intros HX HY HXY.
  assert (HX' : 0 < X < 2 ^ 53) by nia.
  assert (HY' : 0 < Y < 2 ^ 53) by nia.
  pose proof (log2_below_53 X HX'). pose proof (log2_below_53 Y HY').
  pose proof (log2_below_53 (X * Y) ltac:(nia)).
  pose proof (Z.log2_mul_below X Y ltac:(lia) ltac:(lia)).
  unfold float_mul, float_int, SFmul. rewrite xorb_false_r.
  rewrite Pos2Z.inj_mul, !Z2Pos.id by (apply Z.mul_pos_pos; lia).
  replace (X * 2 ^ (52 - Z.log2 X) * (Y * 2 ^ (52 - Z.log2 Y)))
    with ((X * Y) * 2 ^ ((52 - Z.log2 X) + (52 - Z.log2 Y))).
  2:{ rewrite Z.pow_add_r by lia. ring. }
  replace (Z.log2 X - 52 + (Z.log2 Y - 52))
    with (- ((52 - Z.log2 X) + (52 - Z.log2 Y))) by lia.
  apply round_to_float_int; [nia | lia].
Qed.

Lemma int_operand_signed (s : bool) (X : Z) :
  0 < X -> int_operand (if s then - X else X) = S754_finite s (Z.to_pos X) 0.
Proof. intros HX. destruct X as [|p|p]; try lia. destruct s; reflexivity. Qed.

(** [int(((± X * b) / b) * c)] is [± X * c]: nothing is lost when the
    requested dimension is a multiple of the original one and the numbers
    fit in 53 bits. *)
Lemma scale_multiple_signed (s : bool) (X b c : Z) :
  0 < X -> 0 < b -> 0 < c -> X * c < 2 ^ 53 ->
  scale ((if s then - X else X) * b) b c = inr ((if s then - X else X) * c).
Proof.
  intros HX Hb Hc HXc.
  assert (HX' : 0 < X < 2 ^ 53) by nia.
  assert (Hc' : 0 < c < 2 ^ 53) by nia.
  unfold scale, int_truediv.
  replace (b =? 0) with false by (symmetry; apply Z.eqb_neq; lia).
  replace ((if s then - X else X) * b) with (if s then - (X * b) else X * b)
    by (destruct s; ring).
  rewrite int_operand_signed by (apply Z.mul_pos_pos; lia).
  rewrite (int_operand_signed false b Hb).
  rewrite SFdiv_multiple by assumption.
  rewrite float_of_int_exact by assumption.
  unfold float_int at 1. cbn [finite_or_overflow]. fold (float_int s X).
  rewrite SFmul_float_int, int_of_float_int by nia.
  destruct s; f_equal; ring.
Qed.

(** [int((0 / b) * c)] is 0. *)
Lemma scale_zero (b c : Z) :
  b <> 0 -> 0 <= c < 2 ^ 53 -> scale 0 b c = inr 0.
Proof.
  intros Hb Hc. unfold scale, int_truediv.
  replace (b =? 0) with false by (symmetry; apply Z.eqb_neq; lia).
  destruct b as [|p|p]; try lia.
  - cbn [int_operand SFdiv xorb finite_or_overflow].
    destruct (Z.eq_dec c 0) as [->|Hne]; [reflexivity|].
    rewrite float_of_int_exact by lia. reflexivity.
  - cbn [int_operand SFdiv xorb finite_or_overflow].
    destruct (Z.eq_dec c 0) as [->|Hne]; [reflexivity|].
    rewrite float_of_int_exact by lia. reflexivity.
Qed.

(** [int(((k * b) / b) * c) = k * c] for every integer [k], positive [b]
    and non-negative [c], as long as [k], [c] and [k * c] stay below 2^53
    in magnitude. *)
Lemma scale_multiple (k b c : Z) :
  0 < b -> 0 <= c < 2 ^ 53 -> Z.abs k < 2 ^ 53 -> Z.abs (k * c) < 2 ^ 53 ->
  scale (k * b) b c = inr (k * c).
Proof.
  intros Hb Hc Hk Hkc.
  destruct (Z.eq_dec k 0) as [->|Hk0].
  { rewrite Z.mul_0_l. apply scale_zero; lia. }
  destruct (Z.eq_dec c 0) as [->|Hc0].
  { unfold scale, int_truediv.
    replace (b =? 0) with false by (symmetry; apply Z.eqb_neq; lia).
    replace k with (if k <? 0 then - Z.abs k else Z.abs k)
      by (destruct (Z.ltb_spec k 0); lia).
    replace ((if k <? 0 then - Z.abs k else Z.abs k) * b)
      with (if k <? 0 then - (Z.abs k * b) else Z.abs k * b)
      by (destruct (k <? 0); ring).
    rewrite int_operand_signed by (apply Z.mul_pos_pos; lia).
    rewrite (int_operand_signed false b Hb).
    rewrite SFdiv_multiple by lia.
    unfold float_int. cbn. f_equal. destruct (k <? 0); ring. }
  replace k with (if k <? 0 then - Z.abs k else Z.abs k)
    by (destruct (Z.ltb_spec k 0); lia).
  apply scale_multiple_signed; lia.
Qed.



(** *** Negating the requested dimension *)

Lemma binary_round_aux_negb (s : bool) (m e : Z) (l : location) :
  binary_round_aux prec emax (negb s) m e l
  = SFopp (binary_round_aux prec emax s m e l).
Proof.
  unfold binary_round_aux.
  destruct (shr_fexp prec emax m e l) as [mrs' e'].
  destruct (shr_fexp prec emax _ e' loc_Exact) as [mrs'' e''].
  destruct (shr_m mrs'') as [|p|p]; try reflexivity.
  destruct (e'' <=? emax - prec); reflexivity.
Qed.

Lemma SFdiv_finite_opp (sx sy : bool) (mx my : positive) :
  SFdiv prec emax (S754_finite (negb sx) mx 0) (S754_finite sy my 0)
  = SFopp (SFdiv prec emax (S754_finite sx mx 0) (S754_finite sy my 0)).
Proof.
  cbn [SFdiv].
  destruct (SFdiv_core_binary prec emax (Z.pos mx) 0 (Z.pos my) 0)
    as [[mz ez] lz].
  rewrite <- binary_round_aux_negb. destruct sx, sy; reflexivity.
Qed.

Lemma SFdiv_opp_l (a b : Z) :
  a <> 0 -> b <> 0 ->
  SFdiv prec emax (int_operand (- a)) (int_operand b)
  = SFopp (SFdiv prec emax (int_operand a) (int_operand b)).
Proof.
  intros Ha Hb.
  destruct a as [|p|p]; [contradiction Ha; reflexivity|..];
    (destruct b as [|r|r]; [contradiction Hb; reflexivity|..]);
    cbn [Z.opp int_operand].
  - apply (SFdiv_finite_opp false).
  - apply (SFdiv_finite_opp false).
  - apply (SFdiv_finite_opp true).
  - apply (SFdiv_finite_opp true).
Qed.

Lemma float_mul_opp_l (x y : spec_float) :
  float_mul (SFopp x) y = SFopp (float_mul x y).
Proof.
  unfold float_mul.
  destruct x as [sx|sx| |sx mx ex], y as [sy|sy| |sy my ey];
    cbn [SFopp SFmul]; try reflexivity;
    try (destruct sx, sy; reflexivity).
  rewrite <- binary_round_aux_negb. destruct sx, sy; reflexivity.
Qed.

Lemma int_of_float_opp (x : spec_float) :
  int_of_float (SFopp x)
  = match int_of_float x with inl e => inl e | inr n => inr (- n) end.
Proof.
  destruct x as [sx|sx| |sx mx ex]; cbn [SFopp int_of_float]; try reflexivity.
  destruct sx; cbn [negb]; f_equal; lia.
Qed.

Lemma finite_or_overflow_opp (x : spec_float) :
  finite_or_overflow (SFopp x)
  = match finite_or_overflow x with
    | inl e => inl e
    | inr r => inr (SFopp r)
    end.
Proof. destruct x; reflexivity. Qed.

Lemma scale_opp (a b c : Z) :
  scale (- a) b c
  = match scale a b c with inl e => inl e | inr n => inr (- n) end.
Proof.
  destruct (Z.eq_dec a 0) as [->|Ha].
  { change (- 0) with 0. unfold scale, int_truediv.
    destruct (b =? 0) eqn:Eb; [reflexivity|].
    apply Z.eqb_neq in Eb.
    assert (Hz : exists s, SFdiv prec emax (int_operand 0) (int_operand b)
                           = S754_zero s).
    { destruct b; [contradiction Eb; reflexivity|..]; eexists; reflexivity. }
    destruct Hz as [s ->]. cbn [finite_or_overflow].
    destruct (float_of_int c) as [e|fc] eqn:Ec; [reflexivity|].
    unfold float_of_int in Ec.
    destruct (binary_normalize prec emax c 0 false) as [sy|sy| |sy my ey];
      inversion Ec; subst; reflexivity. }
  unfold scale, int_truediv.
  destruct (b =? 0) eqn:Eb; [reflexivity|].
  apply Z.eqb_neq in Eb.
  rewrite SFdiv_opp_l, finite_or_overflow_opp by assumption.
  destruct (finite_or_overflow (SFdiv prec emax (int_operand a) (int_operand b)))
    as [e|r]; [reflexivity|].
  destruct (float_of_int c) as [e|fc]; [reflexivity|].
  rewrite float_mul_opp_l. apply int_of_float_opp.
Qed.

End PyFloatFacts.

(** ** More properties of the handlers, for every image library *)

Section RunShapes.

Variable UploadFile : Type.
Variable Image : Type.
Variable file_read : UploadFile -> lib_result bytes.
Variable Image_open : bytes -> lib_result Image.
Variable Image_size : Image -> Z * Z.
Variable Image_format : Image -> option string.
Variable Image_resize : Image -> Z * Z -> Resampling -> lib_result Image.
Variable Image_save : Image -> string -> option Z -> lib_result bytes.

Local Abbreviation convert := (convert_image file_read Image_open Image_save).
Local Abbreviation resize :=
  (resize_image file_read Image_open Image_size Image_format Image_resize
     Image_save).
Local Abbreviation fmt_of := (original_format Image_format).
Local Abbreviation unreadable e :=
  (HTTPException 400 ("Could not process the image. Error: " ++ e)).

Lemma dimension_presence (width height : option Z) :
  (width = None /\ height = None) \/ (width, height) <> (None, None).
Proof. destruct width, height; (left; now split) || (right; discriminate). Qed.

Lemma final_dimensions_error_missing (width height : option Z)
    (size : Z * Z) (ae : PyFloat.arith_error) :
  final_dimensions width height size = inl ae ->
  width = None \/ height = None.
Proof.
  destruct size, width, height; intros H; try discriminate H; tauto.
Qed.

(** Every run of [convert_image], by how far it got. *)
Lemma convert_cases (file : UploadFile) (tf : string) (q : Z) :
  convert file tf q =
    let f := PyStr.upper tf in
    if PyStr.str_in f ["WEBP"; "JPEG"; "PNG"; "BMP"] then
      match file_read file with
      | Raises e => ([CallRead file], Raise (unreadable e))
      | Returns contents =>
          match Image_open contents with
          | Raises e =>
              ([CallRead file; CallOpen contents], Raise (unreadable e))
          | Returns img =>
              ([CallRead file; CallOpen contents;
                CallSave img f (save_quality f q)],
               match Image_save img f (save_quality f q) with
               | Raises e =>
                   Raise (HTTPException 500
                     ("Failed to save the image in the new format. Error: "
                        ++ e))
               | Returns out =>
                   Return (mkStreamingResponse out
                             ("image/" ++ PyStr.lower f)
                             (content_disposition
                                ("optimized." ++ PyStr.lower f)))
               end)
          end
      end
    else
      ([], Raise (HTTPException 400
                    ("Output format '" ++ f ++ "' is not supported."))).
Proof.
  cbv zeta. unfold_handler.
  destruct (PyStr.str_in (PyStr.upper tf) ["WEBP"; "JPEG"; "PNG"; "BMP"]);
    [|reflexivity].
  cbn [negb].
  destruct (file_read file) as [contents|e]; [|reflexivity].
  destruct (Image_open contents) as [img|e]; [|reflexivity].
  destruct (Image_save img (PyStr.upper tf) (save_quality (PyStr.upper tf) q));
    reflexivity.
Qed.

(** Every run of [resize_image] with a dimension present, by how far it
    got. *)
Lemma resize_cases (file : UploadFile) (width height : option Z) (q : Z) :
  (width, height) <> (None, None) ->
  resize file width height q =
    match file_read file with
    | Raises e => ([CallRead file], Raise (unreadable e))
    | Returns contents =>
        match Image_open contents with
        | Raises e =>
            ([CallRead file; CallOpen contents], Raise (unreadable e))
        | Returns img =>
            match final_dimensions width height (Image_size img) with
            | inl ae =>
                ([CallRead file; CallOpen contents], Raise (Uncaught ae))
            | inr size =>
                match Image_resize img size LANCZOS with
                | Raises e =>
                    ([CallRead file; CallOpen contents;
                      CallResize img size LANCZOS],
                     Raise (HTTPException 500
                       ("Failed to resize the image. Error: " ++ e)))
                | Returns resized =>
                    let f := fmt_of img in
                    ([CallRead file; CallOpen contents;
                      CallResize img size LANCZOS;
                      CallSave resized f (save_quality f q)],
                     match Image_save resized f (save_quality f q) with
                     | Raises e =>
                         Raise (HTTPException 500
                           ("Failed to save the resized image. Error: " ++ e))
                     | Returns out =>
                         Return (mkStreamingResponse out
                                   ("image/" ++ PyStr.lower f)
                                   (content_disposition
                                      (resized_filename size f)))
                     end)
                end
            end
        end
    end.
Proof.
  intros Hwh.
  destruct (file_read file) as [contents|e] eqn:Hread.
  2:{ unfold_handler. rewrite Hread.
      destruct width, height; try congruence; reflexivity. }
  destruct (Image_open contents) as [img|e] eqn:Hopen.
  2:{ unfold_handler. rewrite Hread, Hopen.
      destruct width, height; try congruence; reflexivity. }
  destruct (final_dimensions width height (Image_size img)) as [ae|size]
    eqn:Hdim.
  1:{ unfold_handler. rewrite Hread, Hopen, Hdim.
      destruct width, height; try congruence; reflexivity. }
  apply (resize_run _ _ file_read Image_open Image_size Image_format
           Image_resize Image_save file width height q contents img size
           Hwh Hread Hopen Hdim).
Qed.

(** X5.  [target_format] is read without regard to case: two requests whose
    format names differ in case only have the same run and the same
    response. *)
Theorem convert_case_insensitive :
  forall file tf tf' q,
    PyStr.lower tf = PyStr.lower tf' ->
    convert file tf q = convert file tf' q.
Proof.
  intros file tf tf' q H. unfold convert_image.
  rewrite <- (PyStrFacts.upper_lower tf), H, PyStrFacts.upper_lower.
  reflexivity.
Qed.

(** X6.  A conversion that succeeds answers with one of four Content-Types,
    image/webp, image/jpeg, image/png or image/bmp, and the file name
    [optimized.] followed by the same lower-case name. *)
Theorem convert_response_media_types :
  forall file tf q t resp,
    convert_image file_read Image_open Image_save file tf q
      = (t, Return resp) ->
    In (media_type resp, headers resp)
      [("image/webp",
        [("Content-Disposition", "attachment; filename=optimized.webp")]);
       ("image/jpeg",
        [("Content-Disposition", "attachment; filename=optimized.jpeg")]);
       ("image/png",
        [("Content-Disposition", "attachment; filename=optimized.png")]);
       ("image/bmp",
        [("Content-Disposition", "attachment; filename=optimized.bmp")])].
Proof.
  intros file tf q t resp H. rewrite convert_cases in H. cbv zeta in H.
  destruct (PyStr.str_in (PyStr.upper tf) ["WEBP"; "JPEG"; "PNG"; "BMP"])
    eqn:E; [|discriminate H].
  destruct (file_read file) as [contents|e]; [|discriminate H].
  destruct (Image_open contents) as [img|e]; [|discriminate H].
  destruct (Image_save img (PyStr.upper tf) (save_quality (PyStr.upper tf) q))
    as [out|e]; [|discriminate H].
  inversion H; subst; clear H. cbn [media_type headers].
  apply PyStrFacts.str_in_spec in E.
  cbn [In] in E.
  destruct E as [E|[E|[E|[E|[]]]]]; rewrite <- E;
    [left | right; left | do 2 right; left | do 3 right; left];
    reflexivity.
Qed.

(** X7.  [convert_image] raises nothing but [HTTPException] with status 400
    or 500: 400 before any encoder call, 500 only after the upload was
    decoded and the encoder was called with the requested format. *)
Theorem convert_error_statuses :
  forall file tf q t e,
    convert file tf q = (t, Raise e) ->
    (exists d, e = HTTPException 400 d
               /\ forall i f oq, ~ In (CallSave i f oq) t)
    \/ (exists d i oq, e = HTTPException 500 d
                       /\ In (CallSave i (PyStr.upper tf) oq) t).
Proof.
  intros file tf q t e H. rewrite convert_cases in H. cbv zeta in H.
  destruct (PyStr.str_in (PyStr.upper tf) ["WEBP"; "JPEG"; "PNG"; "BMP"]).
  2:{ inversion H; subst. left. eexists. split; [reflexivity|].
      intros i f oq []. }
  destruct (file_read file) as [contents|e0].
  2:{ inversion H; subst. left. eexists. split; [reflexivity|].
      intros i f oq [Hin|[]]; discriminate Hin. }
  destruct (Image_open contents) as [img|e0].
  2:{ inversion H; subst. left. eexists. split; [reflexivity|].
      intros i f oq [Hin|[Hin|[]]]; discriminate Hin. }
  destruct (Image_save img (PyStr.upper tf) (save_quality (PyStr.upper tf) q))
    as [out|e0]; [discriminate H|].
  inversion H; subst. right. do 3 eexists. split; [reflexivity|].
  cbn [In]. right. right. left. reflexivity.
Qed.

(** X8.  What [resize_image] raises: [HTTPException(400)] before any
    resampling call; [HTTPException(500)] only once [Image.resize] has been
    called; or the error of the aspect-ratio arithmetic, uncaught, which
    needs a missing dimension and happens before any resampling call. *)
Theorem resize_error_statuses :
  forall file width height q t e,
    resize file width height q = (t, Raise e) ->
    (exists d, e = HTTPException 400 d
               /\ forall i sz flt, ~ In (CallResize i sz flt) t)
    \/ (exists d img sz, e = HTTPException 500 d
                         /\ In (CallResize img sz LANCZOS) t)
    \/ (exists ae, e = Uncaught ae
                   /\ (width = None \/ height = None)
                   /\ forall i sz flt, ~ In (CallResize i sz flt) t).
Proof.
  intros file width height q t e H.
  destruct (dimension_presence width height) as [[-> ->]|Hwh].
  { inversion H; subst. left. eexists. split; [reflexivity|].
    intros i sz flt []. }
  rewrite (resize_cases file width height q Hwh) in H.
  destruct (file_read file) as [contents|e0].
  2:{ inversion H; subst. left. eexists. split; [reflexivity|].
      intros i sz flt [Hin|[]]; discriminate Hin. }
  destruct (Image_open contents) as [img|e0].
  2:{ inversion H; subst. left. eexists. split; [reflexivity|].
      intros i sz flt [Hin|[Hin|[]]]; discriminate Hin. }
  destruct (final_dimensions width height (Image_size img)) as [ae|size]
    eqn:Hdim.
  1:{ inversion H; subst. right. right. exists ae.
      split; [reflexivity|].
      split; [exact (final_dimensions_error_missing _ _ _ _ Hdim)|].
      intros i sz flt [Hin|[Hin|[]]]; discriminate Hin. }
  destruct (Image_resize img size LANCZOS) as [resized|e0].
  2:{ inversion H; subst. right. left. do 3 eexists.
      split; [reflexivity|]. cbn [In]. tauto. }
  cbv zeta in H.
  destruct (Image_save resized (fmt_of img) (save_quality (fmt_of img) q))
    as [out|e0]; [discriminate H|].
  inversion H; subst. right. left. do 3 eexists.
  split; [reflexivity|]. cbn [In]. tauto.
Qed.

(** X9.  When reading the upload itself raises, both handlers raise
    [HTTPException(400)] with the text of the error in the detail, and
    [Image.open] is never called. *)
Theorem read_failure_400 :
  forall file tf width height q e,
    file_read file = Raises e ->
    (In (PyStr.lower tf) ["webp"; "jpeg"; "png"; "bmp"] ->
     convert file tf q = ([CallRead file], Raise (unreadable e)))
    /\ ((width, height) <> (None, None) ->
        resize file width height q = ([CallRead file], Raise (unreadable e))).
Proof.
  intros file tf width height q e Hread. split.
  - intros Hin. apply PyStrFacts.allow_list_caseless in Hin.
    rewrite convert_cases. cbv zeta. rewrite Hin, Hread. reflexivity.
  - intros Hwh. rewrite (resize_cases file width height q Hwh), Hread.
    reflexivity.
Qed.

(** X10.  When the encoder raises on the conversion path, the handler raises
    [HTTPException(500)] whose detail is
    "Failed to save the image in the new format. Error: " followed by the
    text of the error. *)
Theorem convert_save_failure_500 :
  forall file tf q contents img e,
    In (PyStr.lower tf) ["webp"; "jpeg"; "png"; "bmp"] ->
    file_read file = Returns contents ->
    Image_open contents = Returns img ->
    Image_save img (PyStr.upper tf)
      (if PyStr.str_in (PyStr.upper tf) ["JPEG"; "WEBP"] then Some q else None)
    = Raises e ->
    convert file tf q =
      ([CallRead file; CallOpen contents;
        CallSave img (PyStr.upper tf)
          (if PyStr.str_in (PyStr.upper tf) ["JPEG"; "WEBP"]
           then Some q else None)],
       Raise (HTTPException 500
                ("Failed to save the image in the new format. Error: " ++ e))).
Proof.
  intros file tf q contents img e Hin Hread Hopen Hsave.
  apply PyStrFacts.allow_list_caseless in Hin.
  rewrite convert_cases. cbv zeta. rewrite Hin, Hread, Hopen.
  unfold save_quality. rewrite Hsave. reflexivity.
Qed.

(** X11.  What gets encoded: on the resize path every image handed to the
    encoder is the one [Image.resize] returned in that run, with the
    LANCZOS filter; on the conversion path it is the image [Image.open]
    returned, and [Image.resize] is never called. *)
Theorem saved_image_provenance :
  forall file tf width height q,
    (forall i f oq,
       In (CallSave i f oq) (fst (resize file width height q)) ->
       exists img sz,
         In (CallResize img sz LANCZOS) (fst (resize file width height q))
         /\ Image_resize img sz LANCZOS = Returns i)
    /\ (forall i f oq,
          In (CallSave i f oq) (fst (convert file tf q)) ->
          exists contents,
            In (CallOpen contents) (fst (convert file tf q))
            /\ Image_open contents = Returns i)
    /\ (forall i sz flt, ~ In (CallResize i sz flt) (fst (convert file tf q))).
Proof.
  intros file tf width height q. split; [|split].
  - intros i f oq.
    destruct (dimension_presence width height) as [[-> ->]|Hwh];
      [intros []|].
    rewrite (resize_cases file width height q Hwh).
    destruct (file_read file) as [contents|e0];
      [|intros [Hin|[]]; discriminate Hin].
    destruct (Image_open contents) as [img|e0] eqn:Hopen;
      [|intros [Hin|[Hin|[]]]; discriminate Hin].
    destruct (final_dimensions width height (Image_size img)) as [ae|size];
      [intros [Hin|[Hin|[]]]; discriminate Hin|].
    destruct (Image_resize img size LANCZOS) as [resized|e0] eqn:Hres;
      [|intros [Hin|[Hin|[Hin|[]]]]; discriminate Hin].
    cbv zeta. cbn [fst].
    intros [Hin|[Hin|[Hin|[Hin|[]]]]]; try discriminate Hin.
    inversion Hin; subst. exists img, size. split; [cbn [In]; tauto|exact Hres].
  - intros i f oq. rewrite convert_cases. cbv zeta.
    destruct (PyStr.str_in (PyStr.upper tf) ["WEBP"; "JPEG"; "PNG"; "BMP"]);
      [|intros []].
    destruct (file_read file) as [contents|e0];
      [|intros [Hin|[]]; discriminate Hin].
    destruct (Image_open contents) as [img|e0] eqn:Hopen;
      [|intros [Hin|[Hin|[]]]; discriminate Hin].
    cbn [fst]. intros [Hin|[Hin|[Hin|[]]]]; try discriminate Hin.
    inversion Hin; subst. exists contents. split; [cbn [In]; tauto|exact Hopen].
  - intros i sz flt. rewrite convert_cases. cbv zeta.
    destruct (PyStr.str_in (PyStr.upper tf) ["WEBP"; "JPEG"; "PNG"; "BMP"]);
      [|intros []].
    destruct (file_read file) as [contents|e0];
      [|intros [Hin|[]]; discriminate Hin].
    destruct (Image_open contents) as [img|e0];
      [|intros [Hin|[Hin|[]]]; discriminate Hin].
    cbn [fst]. intros [Hin|[Hin|[Hin|[]]]]; discriminate Hin.
Qed.

(** X12.  An upload whose format the decoder does not report is re-encoded
    as JPEG and, JPEG being lossy, with the [quality] of the request; the
    response is served as image/jpeg under a [.jpeg] file name. *)
Theorem resize_undetected_format_jpeg :
  forall file width height q contents img size resized,
    (width, height) <> (None, None) ->
    file_read file = Returns contents ->
    Image_open contents = Returns img ->
    Image_format img = None ->
    final_dimensions width height (Image_size img) = inr size ->
    Image_resize img size LANCZOS = Returns resized ->
    resize file width height q =
      ([CallRead file; CallOpen contents; CallResize img size LANCZOS;
        CallSave resized "JPEG" (Some q)],
       match Image_save resized "JPEG" (Some q) with
       | Returns out =>
           Return
             {| body := out;
                media_type := "image/jpeg";
                headers :=
                  [("Content-Disposition",
                    "attachment; filename=resized_"
                      ++ PyStr.str_int (fst size) ++ "x"
                      ++ PyStr.str_int (snd size) ++ ".jpeg")] |}
       | Raises e =>
           Raise (HTTPException 500
                    ("Failed to save the resized image. Error: " ++ e))
       end).
Proof.
  intros file width height q contents img size resized
    Hwh Hread Hopen Hfmt Hdim Hres.
  rewrite (resize_cases file width height q Hwh), Hread, Hopen, Hdim, Hres.
  cbv zeta. unfold original_format. rewrite Hfmt.
  change (save_quality "JPEG" q) with (Some q).
  destruct (Image_save resized "JPEG" (Some q)); reflexivity.
Qed.

Lemma convert_first_call (file : UploadFile) (tf : string) (q : Z) :
  fst (convert file tf q) =
    if PyStr.str_in (PyStr.upper tf) ["WEBP"; "JPEG"; "PNG"; "BMP"]
    then CallRead file :: tl (fst (convert file tf q))
    else [].
Proof.
  rewrite convert_cases. cbv zeta.
  destruct (PyStr.str_in (PyStr.upper tf) ["WEBP"; "JPEG"; "PNG"; "BMP"]);
    [|reflexivity].
  destruct (file_read file) as [contents|e0]; [|reflexivity].
  destruct (Image_open contents) as [img|e0]; reflexivity.
Qed.

(** X13.  [convert_image] touches the upload exactly when the format is
    supported: when [target_format] is webp, jpeg, png or bmp up to case,
    the first library call of the run is the read of the upload; otherwise
    the run makes no library call at all. *)
Theorem convert_reads_upload_iff_supported :
  forall file tf q,
    ((exists rest, fst (convert file tf q) = CallRead file :: rest)
     <-> In (PyStr.lower tf) ["webp"; "jpeg"; "png"; "bmp"])
    /\ (fst (convert file tf q) = []
        <-> ~ In (PyStr.lower tf) ["webp"; "jpeg"; "png"; "bmp"]).
Proof.
  intros file tf q. rewrite <- PyStrFacts.allow_list_caseless.
  rewrite convert_first_call.
  destruct (PyStr.str_in (PyStr.upper tf) ["WEBP"; "JPEG"; "PNG"; "BMP"]).
  - split; split.
    + reflexivity.
    + intros _. eexists. reflexivity.
    + discriminate.
    + intros Hno. contradiction Hno. reflexivity.
  - split; split.
    + intros [rest H]. discriminate H.
    + discriminate.
    + intros _. discriminate.
    + reflexivity.
Qed.

(** X4.  The aspect-ratio division is outside every [try]: with [width]
    alone on an image whose own width is 0, or [height] alone on an image
    whose own height is 0, [ZeroDivisionError] leaves the handler as it is,
    not as an [HTTPException], and [Image.resize] is never called. *)
Theorem resize_zero_original_dimension :
  forall file d q contents img,
    file_read file = Returns contents ->
    Image_open contents = Returns img ->
    (fst (Image_size img) = 0 ->
     resize file (Some d) None q =
       ([CallRead file; CallOpen contents],
        Raise (Uncaught PyFloat.ZeroDivisionError)))
    /\ (snd (Image_size img) = 0 ->
        resize file None (Some d) q =
          ([CallRead file; CallOpen contents],
           Raise (Uncaught PyFloat.ZeroDivisionError))).
Proof.
  intros file d q contents img Hread Hopen. split; intros Hz.
  - rewrite resize_cases by discriminate. rewrite Hread, Hopen.
    destruct (Image_size img) as [W0 H0]. cbn [fst] in Hz. subst W0.
    reflexivity.
  - rewrite resize_cases by discriminate. rewrite Hread, Hopen.
    destruct (Image_size img) as [W0 H0]. cbn [snd] in Hz. subst H0.
    reflexivity.
Qed.

(** X2.  Asking for the image's own width alone, or its own height alone,
    resamples to the image's own size (sizes below 2^53). *)
Theorem resize_own_dimension_keeps_size :
  forall file q contents img W0 H0,
    file_read file = Returns contents ->
    Image_open contents = Returns img ->
    Image_size img = (W0, H0) ->
    0 < W0 < 2 ^ 53 -> 0 < H0 < 2 ^ 53 ->
    In (CallResize img (W0, H0) LANCZOS) (fst (resize file (Some W0) None q))
    /\ In (CallResize img (W0, H0) LANCZOS)
         (fst (resize file None (Some H0) q)).
Proof.
  intros file q contents img W0 H0 Hread Hopen Hsize HW HH.
  pose proof (PyFloatFacts.scale_multiple 1 W0 H0) as Ew.
  pose proof (PyFloatFacts.scale_multiple 1 H0 W0) as Eh.
  rewrite !Z.mul_1_l in Ew, Eh.
  split.
  - rewrite resize_cases by discriminate. rewrite Hread, Hopen, Hsize.
    cbn [final_dimensions]. rewrite Ew by (cbn [Z.abs]; lia).
    destruct (Image_resize img (W0, H0) LANCZOS); cbn [fst In]; tauto.
  - rewrite resize_cases by discriminate. rewrite Hread, Hopen, Hsize.
    cbn [final_dimensions]. rewrite Eh by (cbn [Z.abs]; lia).
    destruct (Image_resize img (W0, H0) LANCZOS); cbn [fst In]; tauto.
Qed.

End RunShapes.

(** X1.  When the one requested dimension is an integer multiple [k] of the
    image's own (zero and negative [k] included), the other dimension comes
    out as the same multiple of its own, with nothing lost to rounding, for
    sizes and results below 2^53. *)
Theorem final_dimensions_integer_multiple :
  forall k W0 H0,
    0 < W0 < 2 ^ 53 -> 0 < H0 < 2 ^ 53 ->
    Z.abs (k * W0) < 2 ^ 53 -> Z.abs (k * H0) < 2 ^ 53 ->
    final_dimensions (Some (k * W0)) None (W0, H0) = inr (k * W0, k * H0)
    /\ final_dimensions None (Some (k * H0)) (W0, H0) = inr (k * W0, k * H0).
Proof.
  intros k W0 H0 HW HH HkW HkH.
  assert (Hk : Z.abs k < 2 ^ 53) by nia.
  cbn [final_dimensions].
  rewrite (PyFloatFacts.scale_multiple k W0 H0) by lia.
  rewrite (PyFloatFacts.scale_multiple k H0 W0) by lia.
  split; reflexivity.
Qed.

(** X3.  The aspect-ratio arithmetic is odd in the requested dimension:
    negating it negates the computed one (truncation is toward zero, not
    toward minus infinity), and an arithmetic error stays the same. *)
Theorem final_dimensions_negated :
  forall d size,
    final_dimensions (Some (- d)) None size
    = match final_dimensions (Some d) None size with
      | inl e => inl e
      | inr (w, h) => inr (- w, - h)
      end
    /\ final_dimensions None (Some (- d)) size
       = match final_dimensions None (Some d) size with
         | inl e => inl e
         | inr (w, h) => inr (- w, - h)
         end.
Proof.
  intros d [W0 H0]. cbn [final_dimensions].
  rewrite !PyFloatFacts.scale_opp.
  destruct (PyFloat.scale d W0 H0), (PyFloat.scale d H0 W0); split; reflexivity.
Qed.

(** ** More runs on the stand-in library *)

Module MoreRuns.

Lemma final_dimensions_integer_multiple_witness :
  final_dimensions (Some 200) None (100, 33) = inr (200, 66)
  /\ final_dimensions None (Some 66) (100, 33) = inr (200, 66).
Proof.
  apply (final_dimensions_integer_multiple 2 100 33); cbn [Z.abs Z.mul]; lia.
Defined.

Lemma resize_own_dimension_keeps_size_witness :
  In (CallResize (Fixture.mkImage (100, 50) (Some "JPEG")) (100, 50) LANCZOS)
    (fst (Fixture.resize_image Fixture.jpeg_100x50 (Some 100) None 85))
  /\ In (CallResize (Fixture.mkImage (100, 50) (Some "JPEG")) (100, 50) LANCZOS)
       (fst (Fixture.resize_image Fixture.jpeg_100x50 None (Some 50) 85)).
Proof.
  apply (resize_own_dimension_keeps_size _ _ Fixture.read Fixture.open
    Fixture.size Fixture.format Fixture.resize
           Fixture.save Fixture.jpeg_100x50 85 Fixture.jpeg_100x50
             (Fixture.mkImage (100, 50) (Some "JPEG"))
           100 50 eq_refl eq_refl eq_refl); lia.
Defined.

Lemma resize_zero_original_dimension_witness :
  Fixture.resize_image [Byte.x01; Byte.x00; Byte.x32] (Some 10) None 85 =
    ([CallRead [Byte.x01; Byte.x00; Byte.x32];
      CallOpen [Byte.x01; Byte.x00; Byte.x32]],
     Raise (Uncaught PyFloat.ZeroDivisionError)).
Proof.
  exact (proj1 (resize_zero_original_dimension _ _ Fixture.read Fixture.open
    Fixture.size Fixture.format
                  Fixture.resize Fixture.save [Byte.x01; Byte.x00; Byte.x32] 10
                    85
                  [Byte.x01; Byte.x00; Byte.x32]
                  (Fixture.mkImage (0, 50) (Some "JPEG")) eq_refl eq_refl)
           eq_refl).
Defined.

Lemma convert_case_insensitive_witness :
  Fixture.convert_image Fixture.jpeg_100x50 "PnG" 85
  = Fixture.convert_image Fixture.jpeg_100x50 "png" 85.
Proof.
  exact (convert_case_insensitive _ _ Fixture.read Fixture.open Fixture.save
    Fixture.jpeg_100x50
           "PnG" "png" 85 eq_refl).
Defined.

Lemma convert_response_media_types_witness :
  In ("image/png",
      [("Content-Disposition", "attachment; filename=optimized.png")])
    [("image/webp",
      [("Content-Disposition", "attachment; filename=optimized.webp")]);
     ("image/jpeg",
      [("Content-Disposition", "attachment; filename=optimized.jpeg")]);
     ("image/png",
      [("Content-Disposition", "attachment; filename=optimized.png")]);
     ("image/bmp",
      [("Content-Disposition", "attachment; filename=optimized.bmp")])].
Proof.
  exact (convert_response_media_types _ _ Fixture.read Fixture.open Fixture.save
    Fixture.jpeg_100x50
           "Png" 50
           [CallRead Fixture.jpeg_100x50; CallOpen Fixture.jpeg_100x50;
            CallSave (Fixture.mkImage (100, 50) (Some "JPEG")) "PNG" None]
           {| body := [Byte.x64; Byte.x32; Byte.x00];
              media_type := "image/png";
              headers := [("Content-Disposition",
                           "attachment; filename=optimized.png")] |}
           eq_refl).
Defined.

Lemma convert_error_statuses_witness :
  (exists d,
     HTTPException 400
       "Could not process the image. Error: cannot identify image file"
     = HTTPException 400 d
     /\ forall (i : Fixture.image) f oq,
          ~ In (CallSave i f oq) [CallRead Fixture.garbage; CallOpen
            Fixture.garbage])
  \/ (exists d (i : Fixture.image) oq,
        HTTPException 400
          "Could not process the image. Error: cannot identify image file"
        = HTTPException 500 d
        /\ In (CallSave i (PyStr.upper "png") oq)
             [CallRead Fixture.garbage; CallOpen Fixture.garbage]).
Proof.
  exact (convert_error_statuses _ _ Fixture.read Fixture.open Fixture.save
    Fixture.garbage "png" 85
           [CallRead Fixture.garbage; CallOpen Fixture.garbage]
           (HTTPException 400
              "Could not process the image. Error: cannot identify image file")
           eq_refl).
Defined.

Lemma resize_error_statuses_witness :
  exists d (img : Fixture.image) sz,
    HTTPException 500
      "Failed to resize the image. Error: height and width must be > 0"
    = HTTPException 500 d
    /\ In (CallResize img sz LANCZOS)
         [CallRead Fixture.gif_100x33; CallOpen Fixture.gif_100x33;
          CallResize (Fixture.mkImage (100, 33) (Some "GIF")) (-5, -1) LANCZOS].
Proof.
  destruct (resize_error_statuses _ _ Fixture.read Fixture.open Fixture.size
    Fixture.format Fixture.resize Fixture.save
              Fixture.gif_100x33 (Some (-5)) None 85
              [CallRead Fixture.gif_100x33; CallOpen Fixture.gif_100x33;
               CallResize (Fixture.mkImage (100, 33) (Some "GIF")) (-5, -1)
                 LANCZOS]
              (HTTPException 500
                 "Failed to resize the image. Error: height and width must be > 0")
              eq_refl) as [(d & E & _)|[H|(ae & E & _)]].
  - discriminate E.
  - exact H.
  - discriminate E.
Defined.

Lemma read_failure_400_witness :
  convert_image (fun _ : unit => Raises "connection lost") Fixture.open
    Fixture.save
    tt "jpeg" 85
  = ([CallRead tt],
     Raise (HTTPException 400
              "Could not process the image. Error: connection lost"))
  /\ resize_image (fun _ : unit => Raises "connection lost") Fixture.open
    Fixture.size
       Fixture.format Fixture.resize Fixture.save tt (Some 10) None 85
     = ([CallRead tt],
        Raise (HTTPException 400
                 "Could not process the image. Error: connection lost")).
Proof.
  destruct (read_failure_400 _ _ (fun _ : unit => Raises "connection lost")
              Fixture.open Fixture.size Fixture.format Fixture.resize
                Fixture.save tt "jpeg" (Some 10) None 85
              "connection lost" eq_refl) as [Hc Hr].
  split.
  - apply Hc. simpl. tauto.
  - apply Hr. discriminate.
Defined.

Lemma convert_save_failure_500_witness :
  convert_image Fixture.read Fixture.open (fun _ _ _ => Raises
    "cannot write mode P as JPEG")
    Fixture.gif_100x33 "jpeg" 85
  = ([CallRead Fixture.gif_100x33; CallOpen Fixture.gif_100x33;
      CallSave (Fixture.mkImage (100, 33) (Some "GIF")) "JPEG" (Some 85)],
     Raise (HTTPException 500
              "Failed to save the image in the new format. Error: cannot write mode P as JPEG")).
Proof.
  assert (Hin : In (PyStr.lower "jpeg") ["webp"; "jpeg"; "png"; "bmp"]).
  { simpl. tauto. }
  exact (convert_save_failure_500 _ _ Fixture.read Fixture.open
           (fun _ _ _ => Raises "cannot write mode P as JPEG")
           Fixture.gif_100x33 "jpeg" 85 Fixture.gif_100x33 (Fixture.mkImage
             (100, 33) (Some "GIF"))
           "cannot write mode P as JPEG" Hin eq_refl eq_refl eq_refl).
Defined.

Lemma saved_image_provenance_witness :
  exists (img : Fixture.image) sz,
    In (CallResize img sz LANCZOS)
      (fst (Fixture.resize_image Fixture.jpeg_100x50 (Some 50) None 85))
    /\ Fixture.resize img sz LANCZOS = Returns (Fixture.mkImage (50, 25) None).
Proof.
  destruct (saved_image_provenance _ _ Fixture.read Fixture.open Fixture.size
    Fixture.format Fixture.resize Fixture.save
              Fixture.jpeg_100x50 "png" (Some 50) None 85) as (Hr & _ & _).
  apply (Hr (Fixture.mkImage (50, 25) None) "JPEG" (Some 85)).
  vm_compute. tauto.
Defined.

Lemma resize_undetected_format_jpeg_witness :
  Fixture.resize_image [Byte.x00; Byte.x64; Byte.x32] (Some 50) None 85 =
    ([CallRead [Byte.x00; Byte.x64; Byte.x32];
      CallOpen [Byte.x00; Byte.x64; Byte.x32];
      CallResize (Fixture.mkImage (100, 50) None) (50, 25) LANCZOS;
      CallSave (Fixture.mkImage (50, 25) None) "JPEG" (Some 85)],
     Return {| body := [Byte.x32; Byte.x19; Byte.x55];
               media_type := "image/jpeg";
               headers := [("Content-Disposition",
                            "attachment; filename=resized_50x25.jpeg")] |}).
Proof.
  assert (Hwh : (Some 50, @None Z) <> (None, None)) by discriminate.
  exact (resize_undetected_format_jpeg _ _ Fixture.read Fixture.open
    Fixture.size Fixture.format Fixture.resize Fixture.save
           [Byte.x00; Byte.x64; Byte.x32] (Some 50) None 85
           [Byte.x00; Byte.x64; Byte.x32] (Fixture.mkImage (100, 50) None) (50,
             25)
           (Fixture.mkImage (50, 25) None) Hwh eq_refl eq_refl eq_refl eq_refl
           eq_refl).
Defined.

End MoreRuns.

(** ** When the dimension arithmetic raises nothing *)

Module PyFloatRange.
Import PyFloat PyFloatExact PyFloatFacts.

Lemma shr_1_div2 (r : shr_record) :
  0 <= shr_m r -> shr_m (shr_1 r) = Z.div2 (shr_m r).
Proof.
  destruct r as [m b1 b2]. cbn [shr_m]. intros Hm.
  destruct m as [|p|p]; [reflexivity| |lia].
  destruct p; reflexivity.
Qed.

Lemma shr_1_iter_shiftr (n : nat) (r : shr_record) :
  0 <= shr_m r ->
  shr_m (Nat.iter n shr_1 r) = Z.shiftr (shr_m r) (Z.of_nat n).
Proof.
  intros Hr. induction n as [|n IH].
  - change (Z.of_nat 0) with 0. now rewrite Z.shiftr_0_r.
  - rewrite Nat.iter_succ, shr_1_div2, IH, Z.div2_spec, Z.shiftr_shiftr by
      (try rewrite IH; try apply Z.shiftr_nonneg; lia).
    f_equal. lia.
Qed.

Lemma shr_shiftr (r : shr_record) (e n : Z) :
  0 <= shr_m r -> 0 <= n ->
  shr_m (fst (shr r e n)) = Z.shiftr (shr_m r) n /\ snd (shr r e n) = e + n.
Proof.
  intros Hr Hn. unfold shr. destruct n as [|p|p]; try lia.
  - cbn [fst snd]. rewrite Z.shiftr_0_r. split; lia.
  - cbn [fst snd]. rewrite iter_pos_nat, shr_1_iter_shiftr by assumption.
    rewrite positive_nat_Z. split; reflexivity.
Qed.

Lemma round_nearest_even_range (m : Z) (l : location) :
  m <= round_nearest_even m l <= m + 1.
Proof.
  destruct l as [|[]]; cbn [round_nearest_even]; try lia.
  destruct (Z.even m); lia.
Qed.

Lemma log2_bounds (m k : Z) : 0 < m -> Z.log2 m = k -> 2 ^ k <= m < 2 ^ (k + 1).
Proof. intros Hm <-. apply (Z.log2_spec m Hm). Qed.

(** Rounding a mantissa of at least 53 bits whose value lies in the normal
    range gives a finite float with a 53-bit mantissa. *)
Lemma binary_round_aux_normal (s : bool) (m e : Z) (l : location) :
  0 < m -> 52 <= Z.log2 m -> - 1022 <= Z.log2 m + e <= 1022 ->
  exists m' e',
    binary_round_aux prec emax s m e l = S754_finite s m' e'
    /\ Z.log2 (Z.pos m') = 52
    /\ Z.log2 m + e <= e' + 52 <= Z.log2 m + e + 1.
Proof.
  intros Hm Hd Hmag.
  unfold binary_round_aux, shr_fexp.
  rewrite fexp_binary64, Zdigits2_log2 by assumption.
  replace (Z.max (Z.log2 m + 1 + e - 53) (- 1074) - e) with (Z.log2 m - 52)
    by lia.
  destruct (shr_shiftr (shr_record_of_loc m l) e (Z.log2 m - 52)) as [Em Ee].
  { destruct l as [|[]]; cbn; lia. }
  { lia. }
  destruct (shr (shr_record_of_loc m l) e (Z.log2 m - 52)) as [mrs' e'].
  cbn [fst snd] in Em, Ee. subst e'.
  assert (Hrec : shr_m (shr_record_of_loc m l) = m)
    by (destruct l as [|[]]; reflexivity).
  rewrite Hrec in Em.
  pose proof (log2_bounds m _ Hm eq_refl) as [Hlo Hhi].
  assert (Hm1 : 2 ^ 52 <= shr_m mrs' < 2 ^ 53).
  { rewrite Em, Z.shiftr_div_pow2 by lia. split.
    - apply Z.div_le_lower_bound; [apply Z.pow_pos_nonneg; lia|].
      rewrite <- Z.pow_add_r by lia.
      replace (Z.log2 m - 52 + 52) with (Z.log2 m) by lia. exact Hlo.
    - apply Z.div_lt_upper_bound; [apply Z.pow_pos_nonneg; lia|].
      rewrite <- Z.pow_add_r by lia.
      replace (Z.log2 m - 52 + 53) with (Z.log2 m + 1) by lia. exact Hhi. }
  pose proof (round_nearest_even_range (shr_m mrs') (loc_of_shr_record mrs'))
    as Hrne.
  remember (round_nearest_even (shr_m mrs') (loc_of_shr_record mrs')) as m2
    eqn:Hm2. clear Hm2.
  assert (H2 : 2 ^ 52 <= m2 <= 2 ^ 53) by lia.
  rewrite fexp_binary64, Zdigits2_log2 by lia.
  cbn [shr_record_of_loc].
  destruct (Z.eq_dec m2 (2 ^ 53)) as [->|Hne].
  - rewrite Z.log2_pow2 by lia.
    replace (Z.max (53 + 1 + (e + (Z.log2 m - 52)) - 53) (- 1074)
             - (e + (Z.log2 m - 52))) with 1 by lia.
    cbn [shr iter_pos]. change (shr_1 _) with
      (Build_shr_record (2 ^ 52) false false). cbn [shr_m].
    change (2 ^ 52) with (Z.pos (Z.to_pos (2 ^ 52))).
    cbv iota beta.
    replace (e + (Z.log2 m - 52) + 1 <=? emax - prec) with true
      by (symmetry; apply Z.leb_le; unfold emax, prec; lia).
    eexists _, _. split; [reflexivity|]. split; [reflexivity|]. lia.
  - assert (Hl2 : Z.log2 m2 = 52).
    { apply Z.log2_unique; lia. }
    rewrite Hl2.
    replace (Z.max (52 + 1 + (e + (Z.log2 m - 52)) - 53) (- 1074)
             - (e + (Z.log2 m - 52))) with 0 by lia.
    cbn [shr shr_m].
    destruct m2 as [|p|p]; try lia.
    replace (e + (Z.log2 m - 52) <=? emax - prec) with true
      by (symmetry; apply Z.leb_le; unfold emax, prec; lia).
    eexists _, _. split; [reflexivity|]. split; [exact Hl2|]. lia.
Qed.

(** The quotient of two positive integers, the divisor below 2^53 and the
    dividend below 2^900, is a finite float. *)
Lemma SFdiv_finite (s : bool) (A B : Z) :
  0 < A < 2 ^ 900 -> 0 < B < 2 ^ 53 ->
  exists m' e',
    SFdiv prec emax (S754_finite s (Z.to_pos A) 0)
      (S754_finite false (Z.to_pos B) 0) = S754_finite s m' e'
    /\ Z.log2 (Z.pos m') = 52
    /\ - 53 <= e' + 52 <= 900.
Proof.
  intros HA HB.
  assert (Hla : 0 <= Z.log2 A < 900).
  { split; [apply Z.log2_nonneg|]. apply Z.log2_lt_pow2; lia. }
  assert (Hlb : 0 <= Z.log2 B < 53).
  { split; [apply Z.log2_nonneg|]. apply Z.log2_lt_pow2; lia. }
  pose proof (log2_bounds A _ ltac:(lia) eq_refl) as [HAlo HAhi].
  pose proof (log2_bounds B _ ltac:(lia) eq_refl) as [HBlo HBhi].
  unfold SFdiv, SFdiv_core_binary.
  rewrite !Z2Pos.id by lia.
  rewrite !Zdigits2_log2 by lia.
  rewrite fexp_binary64.
  remember (Z.min (Z.max (Z.log2 A + 1 + 0 - (Z.log2 B + 1 + 0) - 53)
                         (- 1074)) (0 - 0)) as e' eqn:He'.
  assert (Ee : e' = Z.min (Z.log2 A - Z.log2 B - 53) 0) by lia. clear He'.
  remember (0 - 0 - e') as sh eqn:Hsh.
  assert (Hsh0 : 0 <= sh) by lia.
  assert (Hm : match sh with
               | 0 => A
               | Z.pos _ => Z.shiftl A sh
               | Z.neg _ => 0
               end = A * 2 ^ sh).
  { destruct sh as [|p|p]; try lia.
    rewrite Z.shiftl_mul_pow2 by lia. reflexivity. }
  rewrite Hm, div_eucl_pair, xorb_false_r.
  set (q := A * 2 ^ sh / B).
  set (k := Z.log2 A + sh - Z.log2 B - 1).
  assert (Hk : 52 <= k) by (unfold k; lia).
  assert (Hqlo : 2 ^ k <= q).
  { apply Z.div_le_lower_bound; [lia|].
    apply Z.le_trans with (2 ^ (Z.log2 B + 1) * 2 ^ k).
    - apply Z.mul_le_mono_nonneg_r; [apply Z.pow_nonneg|]; lia.
    - rewrite <- Z.pow_add_r by lia.
      replace (Z.log2 B + 1 + k) with (Z.log2 A + sh) by (unfold k; lia).
      rewrite Z.pow_add_r by lia.
      apply Z.mul_le_mono_nonneg_r; [apply Z.pow_nonneg|]; lia. }
  assert (Hqhi : q < 2 ^ (k + 2)).
  { apply Z.div_lt_upper_bound; [lia|].
    apply Z.lt_le_trans with (2 ^ Z.log2 B * 2 ^ (k + 2)).
    - rewrite <- Z.pow_add_r by lia.
      replace (Z.log2 B + (k + 2)) with (Z.log2 A + 1 + sh) by (unfold k; lia).
      rewrite Z.pow_add_r by lia.
      apply Z.mul_lt_mono_pos_r; [apply Z.pow_pos_nonneg|]; lia.
    - apply Z.mul_le_mono_nonneg_r; [apply Z.pow_nonneg|]; lia. }
  assert (Hq : 0 < q).
  { apply Z.lt_le_trans with (2 ^ k); [apply Z.pow_pos_nonneg|]; lia. }
  assert (Hlq : k <= Z.log2 q <= k + 1).
  { split.
    - apply Z.log2_le_pow2; assumption.
    - assert (Z.log2 q < k + 2) by (apply Z.log2_lt_pow2; assumption). lia. }
  destruct (binary_round_aux_normal s q e' (new_location B (A * 2 ^ sh mod B)))
    as (m' & e'' & E & Hl & Hr); try lia.
  exists m', e''. split; [exact E|]. split; [exact Hl|].
  unfold k in Hlq. lia.
Qed.

(** The product of a finite float of moderate size by the float of an
    integer below 2^53 is finite, so [int()] accepts it. *)
Lemma int_of_float_mul_defined (s : bool) (m1 : positive) (e1 c : Z) :
  Z.log2 (Z.pos m1) = 52 -> - 53 <= e1 + 52 <= 900 -> 0 < c < 2 ^ 53 ->
  exists n,
    int_of_float (float_mul (S754_finite s m1 e1) (float_int false c)) = inr n.
Proof.
  intros Hl1 He1 Hc.
  pose proof (log2_below_53 c Hc) as Hlc.
  unfold float_mul, float_int, SFmul. rewrite xorb_false_r.
  set (mc := c * 2 ^ (52 - Z.log2 c)).
  assert (Hmc : 0 < mc) by (apply Z.mul_pos_pos; [|apply Z.pow_pos_nonneg]; lia).
  assert (Hlmc : Z.log2 mc = 52).
  { unfold mc. rewrite Z.log2_mul_pow2 by lia. lia. }
  rewrite Pos2Z.inj_mul, Z2Pos.id by assumption.
  pose proof (Z.log2_mul_below (Z.pos m1) mc ltac:(lia) Hmc).
  pose proof (Z.log2_mul_above (Z.pos m1) mc ltac:(lia) ltac:(lia)).
  destruct (binary_round_aux_normal s (Z.pos m1 * mc)
              (e1 + (Z.log2 c - 52)) loc_Exact)
    as (m' & e' & E & _ & _); try lia.
  rewrite E. cbn [int_of_float]. eexists. reflexivity.
Qed.

(** [int((a / b) * c)] raises nothing for image sizes below 2^53 and a
    requested dimension below 2^900 in magnitude. *)
Lemma scale_defined (a b c : Z) :
  Z.abs a < 2 ^ 900 -> 0 < b < 2 ^ 53 -> 0 < c < 2 ^ 53 ->
  exists n, scale a b c = inr n.
Proof.
  intros Ha Hb Hc.
  destruct (Z.eq_dec a 0) as [->|Ha0].
  { exists 0. apply scale_zero; lia. }
  unfold scale, int_truediv.
  replace (b =? 0) with false by (symmetry; apply Z.eqb_neq; lia).
  replace a with (if a <? 0 then - Z.abs a else Z.abs a)
    by (destruct (Z.ltb_spec a 0); lia).
  rewrite int_operand_signed by lia.
  rewrite (int_operand_signed false b) by lia.
  destruct (SFdiv_finite (a <? 0) (Z.abs a) b) as (m' & e' & E & Hl & He);
    try lia.
  rewrite E. cbn [finite_or_overflow].
  rewrite float_of_int_exact by assumption.
  apply int_of_float_mul_defined; assumption.
Qed.

End PyFloatRange.

(** ** The route in front of [convert_image], and the way to the resampler *)

Section RoutesAndReach.

Variable UploadFile : Type.
Variable Image : Type.
Variable file_read : UploadFile -> lib_result bytes.
Variable Image_open : bytes -> lib_result Image.
Variable Image_size : Image -> Z * Z.
Variable Image_format : Image -> option string.
Variable Image_resize : Image -> Z * Z -> Resampling -> lib_result Image.
Variable Image_save : Image -> string -> option Z -> lib_result bytes.

Local Abbreviation resize :=
  (resize_image file_read Image_open Image_size Image_format Image_resize
     Image_save).

(** C2.  A request to [/api/v1/convert] that passes the [Query] constraints
    ([target_format] of 3 or 4 characters, [quality] within 1..100 or
    omitted) and whose [target_format] is not webp, jpeg, png or bmp when
    compared without regard to case is answered 400 whatever the upload
    is, by [convert_image] itself, and no library call (no read of the
    upload, no decode) has been made by then.  For a name of ASCII
    characters the detail is "Output format '<NAME>' is not supported."
    with the name in upper case. *)
Theorem convert_route_unsupported_format_400 :
  forall (file : UploadFile) (target_format : string) (quality : option Z),
    3 <= PyStr.len target_format <= 4 ->
    (forall q, quality = Some q -> 1 <= q <= 100) ->
    ~ In (PyStr.lower target_format) ["webp"; "jpeg"; "png"; "bmp"] ->
    exists detail,
      convert_route file_read Image_open Image_save file
        (Some target_format) quality
      = Handled ([], Raise (HTTPException 400 detail))
      /\ status (convert_route file_read Image_open Image_save file
                   (Some target_format) quality) = 400
      /\ (PyStr.is_ascii target_format = true ->
          detail = "Output format '" ++ PyStr.upper target_format
                     ++ "' is not supported.").
Proof.
  intros file tf oq Hlen Hq Hno.
  assert (Hrun : forall q,
             convert_image file_read Image_open Image_save file tf q
             = ([], Raise (HTTPException 400
                      ("Output format '" ++ PyStr.upper tf
                         ++ "' is not supported.")))).
  { intros q. unfold convert_image.
    destruct (PyStr.str_in (PyStr.upper tf) ["WEBP"; "JPEG"; "PNG"; "BMP"])
      eqn:E; [|reflexivity].
    apply PyStrFacts.allow_list_caseless in E. contradiction. }
  exists ("Output format '" ++ PyStr.upper tf ++ "' is not supported.").
  unfold convert_route.
  replace (3 <=? PyStr.len tf) with true
    by (symmetry; apply Z.leb_le; lia).
  replace (PyStr.len tf <=? 4) with true
    by (symmetry; apply Z.leb_le; lia).
  destruct oq as [q|].
  - specialize (Hq q eq_refl).
    replace (1 <=? q) with true by (symmetry; apply Z.leb_le; lia).
    replace (q <=? 100) with true by (symmetry; apply Z.leb_le; lia).
    cbn [andb]. rewrite Hrun. repeat split.
  - cbn [andb Z.leb Z.compare]. cbv iota. rewrite Hrun. repeat split.
Qed.

(** C9.  Presence is all that the resize path checks of [width] and
    [height]: for any integers, zero and negative ones included, once the
    upload decodes, the handler reaches [Image.resize] with the size that
    the dimension step yields (the supplied pair itself when both are
    given), and when that call raises the handler raises
    [HTTPException(500)], not 400.  With both dimensions supplied this
    holds without condition; with one, for an image whose own dimensions
    are positive and below 2^53 and a supplied dimension below 2^900 in
    magnitude, where the float arithmetic raises nothing. *)
Theorem resize_no_positivity_check :
  forall file width height q contents img,
    (width, height) <> (None, None) ->
    file_read file = Returns contents ->
    Image_open contents = Returns img ->
    (width = None \/ height = None ->
     0 < fst (Image_size img) < 2 ^ 53
     /\ 0 < snd (Image_size img) < 2 ^ 53
     /\ forall d, width = Some d \/ height = Some d -> Z.abs d < 2 ^ 900) ->
    exists size,
      final_dimensions width height (Image_size img) = inr size
      /\ In (CallResize img size LANCZOS) (fst (resize file width height q))
      /\ (forall w h, width = Some w -> height = Some h -> size = (w, h))
      /\ (forall e,
            Image_resize img size LANCZOS = Raises e ->
            resize file width height q =
              ([CallRead file; CallOpen contents;
                CallResize img size LANCZOS],
               Raise (HTTPException 500
                        ("Failed to resize the image. Error: " ++ e)))).
Proof.
  intros file width height q contents img Hwh Hread Hopen Hsmall.
  assert (Hdim : exists size,
             final_dimensions width height (Image_size img) = inr size).
  { destruct (Image_size img) as [W0 H0]. cbn [fst snd] in Hsmall.
    destruct width as [w|], height as [h|]; cbn [final_dimensions].
    - eexists. reflexivity.
    - destruct Hsmall as (HW & HH & Hd); [right; reflexivity|].
      destruct (PyFloatRange.scale_defined w W0 H0) as [n ->]; try assumption.
      + apply Hd. left. reflexivity.
      + eexists. reflexivity.
    - destruct Hsmall as (HW & HH & Hd); [left; reflexivity|].
      destruct (PyFloatRange.scale_defined h H0 W0) as [n ->]; try assumption.
      + apply Hd. right. reflexivity.
      + eexists. reflexivity.
    - congruence. }
  destruct Hdim as [size Hdim]. exists size.
  split; [exact Hdim|].
  rewrite (resize_run _ _ file_read Image_open Image_size Image_format
             Image_resize Image_save file width height q contents img size
             Hwh Hread Hopen Hdim).
  split; [|split].
  - destruct (Image_resize img size LANCZOS); cbn [fst In];
      [do 2 right; left | do 2 right; left]; reflexivity.
  - intros w h -> ->. destruct (Image_size img). now inversion Hdim.
  - intros e ->. reflexivity.
Qed.

End RoutesAndReach.

(** ** Runs that the two statements above leave out, and runs they cover *)

Module EdgeRuns.

(** A [target_format] of two characters, or of five, never reaches the
    handler: the answer is 422, not 400. *)
Lemma convert_route_short_format_422 :
  ~ In (PyStr.lower "gi") ["webp"; "jpeg"; "png"; "bmp"]
  /\ convert_route Fixture.read Fixture.open Fixture.save
       Fixture.jpeg_100x50 (Some "gi") (Some 85) = Unprocessable
  /\ status (convert_route Fixture.read Fixture.open Fixture.save
               Fixture.jpeg_100x50 (Some "gi") (Some 85)) = 422
  /\ ~ In (PyStr.lower "tiff2") ["webp"; "jpeg"; "png"; "bmp"]
  /\ status (convert_route Fixture.read Fixture.open Fixture.save
               Fixture.jpeg_100x50 (Some "tiff2") (Some 85)) <> 400.
Proof.
  repeat split; try reflexivity.
  - cbn. intros [H|[H|[H|[H|[]]]]]; discriminate H.
  - cbn. intros [H|[H|[H|[H|[]]]]]; discriminate H.
  - vm_compute. discriminate.
Qed.

Lemma convert_route_unsupported_format_400_witness :
  exists detail,
    convert_route Fixture.read Fixture.open Fixture.save
      Fixture.jpeg_100x50 (Some "GiF") (Some 85)
    = Handled ([], Raise (HTTPException 400 detail))
    /\ status (convert_route Fixture.read Fixture.open Fixture.save
                 Fixture.jpeg_100x50 (Some "GiF") (Some 85)) = 400
    /\ (PyStr.is_ascii "GiF" = true ->
        detail = "Output format '" ++ PyStr.upper "GiF"
                   ++ "' is not supported.").
Proof.
  apply (convert_route_unsupported_format_400 _ _ Fixture.read Fixture.open
           Fixture.save Fixture.jpeg_100x50 "GiF" (Some 85)).
  - cbn. lia.
  - intros q Hq. inversion Hq. lia.
  - cbn. intros [H|[H|[H|[H|[]]]]]; discriminate H.
Defined.

(** A file cut after its header opens, and fails where its data is first
    needed: the answer is 500 on both endpoints. *)
Lemma truncated_upload_500 :
  LazyCodec.open LazyCodec.truncated_png
    = Returns (LazyCodec.mkImage (2, 2) (Some "PNG") false)
  /\ convert_image LazyCodec.read LazyCodec.open LazyCodec.save
       LazyCodec.truncated_png "png" 85
     = ([CallRead LazyCodec.truncated_png;
         CallOpen LazyCodec.truncated_png;
         CallSave (LazyCodec.mkImage (2, 2) (Some "PNG") false) "PNG" None],
        Raise (HTTPException 500
                 "Failed to save the image in the new format. Error: image file is truncated"))
  /\ resize_image LazyCodec.read LazyCodec.open LazyCodec.size
       LazyCodec.format LazyCodec.resize LazyCodec.save
       LazyCodec.truncated_png (Some 1) None 85
     = ([CallRead LazyCodec.truncated_png;
         CallOpen LazyCodec.truncated_png;
         CallResize (LazyCodec.mkImage (2, 2) (Some "PNG") false) (1, 1)
           LANCZOS],
        Raise (HTTPException 500
                 "Failed to resize the image. Error: image file is truncated")).
Proof. vm_compute. repeat split. Qed.

(** A width of -(10^400) alone passes the presence check and never reaches
    the resampler: the division overflows, uncaught. *)
Lemma resize_huge_dimension_overflow :
  Fixture.resize_image Fixture.gif_100x33 (Some (- (10 ^ 400))) None 85
    = ([CallRead Fixture.gif_100x33; CallOpen Fixture.gif_100x33],
       Raise (Uncaught PyFloat.OverflowError))
  /\ forall i sz flt,
       ~ In (CallResize i sz flt)
           (fst (Fixture.resize_image Fixture.gif_100x33
                   (Some (- (10 ^ 400))) None 85)).
Proof.
  assert (E : Fixture.resize_image Fixture.gif_100x33
                (Some (- (10 ^ 400))) None 85
              = ([CallRead Fixture.gif_100x33; CallOpen Fixture.gif_100x33],
                 Raise (Uncaught PyFloat.OverflowError)))
    by (vm_compute; reflexivity).
  split; [exact E|].
  intros i sz flt. rewrite E. cbn [fst In].
  intros [H|[H|[]]]; discriminate H.
Qed.

Lemma resize_no_positivity_check_witness :
  exists sz,
    final_dimensions (Some (-5)) None
      (Fixture.size (Fixture.mkImage (100, 33) (Some "GIF"))) = inr sz
    /\ In (CallResize (Fixture.mkImage (100, 33) (Some "GIF")) sz LANCZOS)
         (fst (Fixture.resize_image Fixture.gif_100x33 (Some (-5)) None 85))
    /\ (forall w h, Some (-5) = Some w -> @None Z = Some h -> sz = (w, h))
    /\ (forall e,
          Fixture.resize (Fixture.mkImage (100, 33) (Some "GIF")) sz LANCZOS
            = Raises e ->
          Fixture.resize_image Fixture.gif_100x33 (Some (-5)) None 85 =
            ([CallRead Fixture.gif_100x33; CallOpen Fixture.gif_100x33;
              CallResize (Fixture.mkImage (100, 33) (Some "GIF")) sz LANCZOS],
             Raise (HTTPException 500
                      ("Failed to resize the image. Error: " ++ e)))).
Proof.
  apply (resize_no_positivity_check _ _ Fixture.read Fixture.open
           Fixture.size Fixture.format Fixture.resize Fixture.save
           Fixture.gif_100x33 (Some (-5)) None 85 Fixture.gif_100x33
           (Fixture.mkImage (100, 33) (Some "GIF"))).
  - discriminate.
  - reflexivity.
  - reflexivity.
  - intros _. cbn [Fixture.size fst snd]. repeat split; try lia.
    intros d [Hd|Hd]; inversion Hd. cbn [Z.abs]. lia.
Defined.

End EdgeRuns.
